(** * portal: a desktop-portal broker on the session bus

    A shallow embedding of the Go program (the variant with the OpenURI,
    FileChooser and Settings interfaces) and the properties its
    specification states about it.

    Conventions.
    - A Go [string] is a sequence of bytes: [String.string].
    - A [uint32] is a [Z]; only the constants 0, 1, 3 and 4 occur.
    - [map[string]dbus.Variant] is a [gmap string Variant].
    - A Go interface value is [option dyn]: [None] is the nil interface
      (no dynamic type), [Some d] carries a dynamic type and a value.
    - Code that panics, exits or blocks runs in the monad [M], which
      threads the answers of the outside world (bus, subprocesses) and
      collects the events the code produces. *)

From Stdlib Require Import ZArith Ascii String List Lia.
From stdpp Require Import base option gmap strings.

Local Open Scope string_scope.
Local Open Scope Z_scope.

(** ** Standard-library string functions used by the program *)

Module strings.

(** [strings.HasPrefix(s, prefix)]. *)
Fixpoint HasPrefix (s prefix : string) {struct prefix} : bool :=
  match prefix, s with
  | EmptyString, _ => true
  | String p prefix', String c s' => if Ascii.eqb p c then HasPrefix s' prefix' else false
  | String _ _, EmptyString => false
  end.

(** [s[n:]] for [n <= len(s)]. *)
Fixpoint drop (n : nat) (s : string) : string :=
  match n, s with
  | O, _ => s
  | S n', String _ s' => drop n' s'
  | S _, EmptyString => EmptyString
  end.

(** [strings.CutPrefix(s, prefix)]: [s] without the leading [prefix] and
    whether it was found. *)
Definition CutPrefix (s prefix : string) : string * bool :=
  if HasPrefix s prefix then (drop (String.length prefix) s, true) else (s, false).

(** The scan of [strings.ReplaceAll]: [skip] counts the bytes of the
    current match that are still to be stepped over. *)
Fixpoint replace_scan (skip : nat) (s old new : string) : string :=
  match s with
  | EmptyString => EmptyString
  | String c rest =>
      match skip with
      | S k => replace_scan k rest old new
      | O =>
          if HasPrefix s old
          then new +:+ replace_scan (Nat.pred (String.length old)) rest old new
          else String c (replace_scan O rest old new)
      end
  end.

(** [strings.ReplaceAll(s, old, new)] for a non-empty [old]: every
    non-overlapping instance of [old], found left to right, becomes [new].
    (For an empty [old] Go inserts [new] around every rune; the program
    never does that and the case is left as the identity.) *)
Definition ReplaceAll (s old new : string) : string :=
  match old with
  | EmptyString => s
  | String _ _ => replace_scan O s old new
  end.

(** White space as defined by Unicode ([unicode.IsSpace]), given by the
    UTF-8 encodings of its code points: U+0009..U+000D, U+0020, U+0085,
    U+00A0, U+1680, U+2000..U+200A, U+2028, U+2029, U+202F, U+205F and
    U+3000. *)
Definition space1 (b : N) : bool :=
  ((9 <=? b) && (b <=? 13) || (b =? 32))%N.

Definition space2 (b1 b2 : N) : bool :=
  ((b1 =? 194) && ((b2 =? 133) || (b2 =? 160)))%N.

Definition space3 (b1 b2 b3 : N) : bool :=
  ((b1 =? 225) && (b2 =? 154) && (b3 =? 128)
   || (b1 =? 226) && (b2 =? 128)
      && ((128 <=? b3) && (b3 <=? 138) || (b3 =? 168) || (b3 =? 169) || (b3 =? 175))
   || (b1 =? 226) && (b2 =? 129) && (b3 =? 159)
   || (b1 =? 227) && (b2 =? 128) && (b3 =? 128))%N.

(** [strings.TrimLeftFunc(s, unicode.IsSpace)] on the bytes of [s]. *)
Fixpoint trim_left (s : list ascii) : list ascii :=
  match s with
  | nil => nil
  | a :: r1 =>
      if space1 (N_of_ascii a) then trim_left r1
      else
        match r1 with
        | nil => s
        | b :: r2 =>
            if space2 (N_of_ascii a) (N_of_ascii b) then trim_left r2
            else
              match r2 with
              | nil => s
              | c :: r3 =>
                  if space3 (N_of_ascii a) (N_of_ascii b) (N_of_ascii c)
                  then trim_left r3 else s
              end
        end
  end.

(** The same from the end of the string, on the reversed bytes: the last
    rune is read backwards, so its bytes come in the opposite order. *)
Fixpoint trim_right_rev (s : list ascii) : list ascii :=
  match s with
  | nil => nil
  | a :: r1 =>
      if space1 (N_of_ascii a) then trim_right_rev r1
      else
        match r1 with
        | nil => s
        | b :: r2 =>
            if space2 (N_of_ascii b) (N_of_ascii a) then trim_right_rev r2
            else
              match r2 with
              | nil => s
              | c :: r3 =>
                  if space3 (N_of_ascii c) (N_of_ascii b) (N_of_ascii a)
                  then trim_right_rev r3 else s
              end
        end
  end.

(** [strings.TrimSpace(s)]: [s] without leading and trailing white space. *)
Definition TrimSpace (s : string) : string :=
  string_of_list_ascii
    (rev (trim_right_rev (rev (trim_left (list_ascii_of_string s))))).

End strings.

(** ** [fmt] formatting, for the verbs the program uses *)

Module fmt.

(** The verbs [%s], [%v] and [%w], which print a string, or the message of
    an error, as it is. *)
Definition is_verb (c : ascii) : bool :=
  (Ascii.eqb c "s" || Ascii.eqb c "v" || Ascii.eqb c "w")%char.

(** [fmt.Sprintf(format, args...)] for formats whose only directives are
    [%s], [%v] and [%w], applied to strings and to errors (given by their
    messages), with one operand per directive: the formats of this program.
    A directive whose operand is missing prints Go's [%!v(MISSING)]; other
    directives are outside the model and are copied as they are. *)
Fixpoint Sprintf (format : string) (args : list string) : string :=
  match format with
  | EmptyString => EmptyString
  | String c rest =>
      match rest with
      | String v rest' =>
          if Ascii.eqb c "%" && is_verb v then
            match args with
            | a :: args' => a +:+ Sprintf rest' args'
            | nil => "%!" +:+ String v "(MISSING)" +:+ Sprintf rest' nil
            end
          else String c (Sprintf rest args)
      | EmptyString => String c EmptyString
      end
  end.

End fmt.

(** ** The bus library: values, errors, replies *)

Module dbus.

(** A non-nil interface value: its dynamic type and its value.  Only the
    types the program stores in an interface occur.  [DVariantPtr None] is
    a nil [*dbus.Variant] held in an interface: the interface itself is
    not nil, since it has a dynamic type. *)
Inductive dyn : Type :=
| Duint32 (n : Z)
| Dstring (s : string)
| Dstrings (l : list string)
| DVariantPtr (p : option Variant)
with Variant : Type :=
| mkVariant (sig : string) (value : option dyn).

(** [interface{}]: [None] is the nil interface. *)
Definition iface : Type := option dyn.

(** The zero value [dbus.Variant{}], which indexing a map yields for an
    absent key. *)
Definition zeroVariant : Variant := mkVariant "" None.

(** [dbus.SignatureOf(v)] of a non-nil [v]. *)
Definition SignatureOf (d : dyn) : string :=
  match d with
  | Duint32 _ => "u"
  | Dstring _ => "s"
  | Dstrings _ => "as"
  | DVariantPtr _ => "v"
  end.

(** The name of the dynamic type. *)
Definition type_name (d : dyn) : string :=
  match d with
  | Duint32 _ => "uint32"
  | Dstring _ => "string"
  | Dstrings _ => "[]string"
  | DVariantPtr _ => "*dbus.Variant"
  end.

(** [dbus.MakeVariant(v)] of a non-nil [v]. *)
Definition MakeVariant (d : dyn) : Variant := mkVariant (SignatureOf d) (Some d).

(** [v.Value()]. *)
Definition Value (v : Variant) : iface :=
  match v with mkVariant _ x => x end.

Definition ObjectPath : Type := string.
Definition Sender : Type := string.

(** [dbus.Error]. *)
Record Error : Type := mkError { Name : string; Body : list iface }.

(** [dbus.ErrMsgNoObject]. *)
Definition ErrMsgNoObject : Error :=
  mkError "org.freedesktop.DBus.Error.NoSuchObject" [Some (Dstring "No such object")].

(** The replies to [RequestName]. *)
Inductive RequestNameReply : Type :=
| RequestNameReplyPrimaryOwner
| RequestNameReplyInQueue
| RequestNameReplyExists
| RequestNameReplyAlreadyOwner.

Definition is_primary_owner (r : RequestNameReply) : bool :=
  match r with RequestNameReplyPrimaryOwner => true | _ => false end.

(** [dbus.NameFlagDoNotQueue]. *)
Definition NameFlagDoNotQueue : Z := 4.

(** A connection to the bus, by an opaque identity. *)
Inductive Conn : Type := mkConn (id : nat).

End dbus.

Export dbus.

(** [type kv map[string]dbus.Variant] *)
Abbreviation kv := (gmap string Variant).

(** [options["handle_token"]]: indexing a map, the zero value when the key
    is absent (also for a nil map). *)
Definition map_index (m : kv) (k : string) : Variant :=
  match m !! k with
  | Some v => v
  | None => zeroVariant
  end.

(** A Go [error], by its message. *)
Definition error : Type := string.

(** ** The outside world and what a run leaves behind *)

(** The answers of the bus and of the operating system: each field is the
    result that the named call returns.  A call that never returns (a
    helper that hangs) has no answer; the model covers the runs in which
    every call returns. *)
Record World : Type := mkWorld {
  (** [exec.LookPath(prog)] *)
  w_LookPath : string -> string + error;
  (** [(&exec.Cmd{Path: path, Args: args}).Run()] *)
  w_Run : string -> list string -> option error;
  (** [exec.Command(name, arg...).Output()] *)
  w_Output : string -> list string -> string * option error;
  (** [conn.Emit(path, name, errcode, results)] *)
  w_Emit : Conn -> ObjectPath -> string -> Z -> kv -> option error;
  (** [dbus.ConnectSessionBus()] *)
  w_ConnectSessionBus : Conn + error;
  (** [conn.Export(v, path, iface)], by interface name *)
  w_Export : Conn -> ObjectPath -> string -> option error;
  (** [prop.Export(conn, path, props)] *)
  w_PropExport : Conn -> ObjectPath -> list (string * list (string * iface)) -> option error;
  (** [conn.RequestName(name, flags)] *)
  w_RequestName : Conn -> string -> Z -> RequestNameReply * option error
}.

(** An operand of [log.Println]. *)
Inductive logarg : Type :=
| LStr (s : string)
| LErr (e : error)
| LKv (m : kv)
| LKvPtr (m : option kv).

(** What the process does to the outside, in order: a line of the log, a
    text on the diagnostic stream, a helper program asked to run, a
    signal handed to the bus (with the answer of the bus: [None] when it
    took it), and the calls of the bootstrap. *)
Inductive event : Type :=
| EvLog (args : list logarg)
| EvStderr (text : string)
| EvSpawn (path : string) (args : list string)
| EvEmit (c : Conn) (path : ObjectPath) (name : string) (errcode : Z) (results : kv)
         (err : option error)
| EvExport (c : Conn) (path : ObjectPath) (iface_name : string)
| EvPropExport (c : Conn) (path : ObjectPath)
| EvRequestName (c : Conn) (name : string) (flags : Z)
| EvClose (c : Conn).

(** [type Exception struct { what func() error }] *)
Record Exception : Type := mkException { what : unit -> error }.

(** The value a panic carries: an [*Exception] thrown by the program's own
    runtime, or anything else (here a run-time error of the language). *)
Inductive panic_value : Type :=
| PException (exc : Exception)
| PRuntimeError (msg : string).

(** How a piece of code ends: it returns, it panics, the process exits
    ([os.Exit]), or it blocks for ever ([select {}]). *)
Inductive outcome (A : Type) : Type :=
| Ret (a : A)
| Panic (p : panic_value)
| Exit (code : Z)
| Block.

Arguments Ret {A} a.
Arguments Panic {A} p.
Arguments Exit {A} code.
Arguments Block {A}.

(** A detached task ([go func() {...}()]) that ran: its events and how it
    ended.  A task that ends in [Panic] is an uncaught panic in a
    goroutine, which takes the process down. *)
Record goroutine : Type := mkGoroutine {
  g_outcome : outcome unit;
  g_trace : list event
}.

(** The execution of a piece of code: its outcome, its own events, and
    the tasks it detached. *)
Record Exec (A : Type) : Type := mkExec {
  result : outcome A;
  trace : list event;
  spawned : list goroutine
}.

Arguments mkExec {A} result trace spawned.
Arguments result {A} e.
Arguments trace {A} e.
Arguments spawned {A} e.

(** Code that may ask the world, produce events, detach tasks and end in
    any [outcome]. *)
Definition M (A : Type) : Type := World -> Exec A.

Definition pure {A} (a : A) : M A := fun _ => mkExec (Ret a) [] [].

Definition seq {A B} (m : M A) (k : A -> M B) : M B := fun w =>
  match m w with
  | mkExec (Ret a) tr sp =>
      match k a w with
      | mkExec res tr' sp' => mkExec res (tr ++ tr') (sp ++ sp')
      end
  | mkExec (Panic p) tr sp => mkExec (Panic p) tr sp
  | mkExec (Exit c) tr sp => mkExec (Exit c) tr sp
  | mkExec Block tr sp => mkExec Block tr sp
  end.

#[global] Instance M_ret : MRet M := @pure.
#[global] Instance M_bind : MBind M := fun A B k m => seq m k.

(** The answer of the world to a call. *)
Definition ask {A} (f : World -> A) : M A := fun w => mkExec (Ret (f w)) [] [].

Definition tell (e : event) : M unit := fun _ => mkExec (Ret tt) [e] [].

(** [panic(v)] *)
Definition panic {A} (p : panic_value) : M A := fun _ => mkExec (Panic p) [] [].

(** [go func() { body }()]: the caller goes on at once; the task runs on
    its own and its outcome never reaches the caller. *)
Definition go (body : M unit) : M unit := fun w =>
  let r := body w in
  mkExec (Ret tt) [] (mkGoroutine (result r) (trace r) :: spawned r).

(** [defer d] at the start of [body]: [d] runs when [body] returns or
    panics, not when the process exits or the body blocks. *)
Definition defer {A} (d : M unit) (body : M A) : M A := fun w =>
  match body w with
  | mkExec (Exit c) tr sp => mkExec (Exit c) tr sp
  | mkExec Block tr sp => mkExec Block tr sp
  | mkExec res tr sp =>
      match d w with
      | mkExec (Ret _) tr' sp' => mkExec res (tr ++ tr') (sp ++ sp')
      | mkExec (Panic p) tr' sp' => mkExec (Panic p) (tr ++ tr') (sp ++ sp')
      | mkExec (Exit c) tr' sp' => mkExec (Exit c) (tr ++ tr') (sp ++ sp')
      | mkExec Block tr' sp' => mkExec Block (tr ++ tr') (sp ++ sp')
      end
  end.

(** [log.Println(args...)] *)
Definition Println (args : list logarg) : M unit := tell (EvLog args).

(** ** The exception runtime *)

(** [os.Exit(code)] *)
Definition os_Exit {A} (code : Z) : M A := fun _ => mkExec (Exit code) [] [].

(** [select {}] *)
Definition select_forever {A} : M A := fun _ => mkExec Block [] [].

(** [func (self *Exception) throw()] *)
Definition throw {A} (self : Exception) : M A := panic (PException self).

(** [func (self *Exception) catch(cb func( *Exception))]: [self] may be nil. *)
Definition catch (self : option Exception) (cb : Exception -> M unit) : M unit :=
  match self with
  | Some exc => cb exc
  | None => mret tt
  end.

Definition newline : string := String (ascii_of_nat 10) EmptyString.

(** [func (self *Exception) fatal(code int, prefix string)] *)
Definition fatal (self : Exception) (code : Z) (prefix : string) : M unit :=
  tell (EvStderr (fmt.Sprintf ("%s: %v" +:+ newline) [prefix; what self tt]));;
  os_Exit code.

(** [func newException(e error) *Exception] *)
Definition newException (e : error) : Exception :=
  mkException (fun _ => e).

(** [func fmtException(format string, args ...any) *Exception], with
    [fmt.Errorf] giving the error whose message is the formatted text. *)
Definition fmtException (format : string) (args : list string) : Exception :=
  newException (fmt.Sprintf format args).

(** [func try(cb func()) (err *Exception)]: the deferred [recover] turns a
    panic with an [*Exception] into the returned value and panics again
    with anything else. *)
Definition try (cb : M unit) : M (option Exception) := fun w =>
  match cb w with
  | mkExec (Ret _) tr sp => mkExec (Ret None) tr sp
  | mkExec (Panic (PException exc)) tr sp => mkExec (Ret (Some exc)) tr sp
  | mkExec (Panic p) tr sp => mkExec (Panic p) tr sp
  | mkExec (Exit c) tr sp => mkExec (Exit c) tr sp
  | mkExec Block tr sp => mkExec Block tr sp
  end.

(** ** Helper programs *)

(** [func lookPath(prog string) string] *)
Definition lookPath (prog : string) : M string :=
  r ← ask (fun w => w_LookPath w prog);
  match r with
  | inr err => throw (fmtException "can not find %s: %v" [prog; err])
  | inl path => mret path
  end.

(** [func xdgOpen(url string)] *)
Definition xdgOpen (url : string) : M unit :=
  let args := ["xdg-open-dispatch"; url] in
  path ← lookPath "xdg-open-dispatch";
  tell (EvSpawn path args);;
  err ← ask (fun w => w_Run w path args);
  match err with
  | Some e => throw (fmtException "xdg-open-dispatch: %v" [e])
  | None => mret tt
  end.

(** [exec.Command(name, arg...).Output()] *)
Definition exec_Output (name : string) (arg : list string) : M (string * option error) :=
  tell (EvSpawn name (name :: arg));;
  ask (fun w => w_Output w name arg).

(** ** Requests *)

(** [type portal struct { conn *dbus.Conn }] *)
Record portal : Type := mkPortal { portal_conn : Conn }.

(** [type request struct { conn *dbus.Conn; path dbus.ObjectPath }] *)
Record request : Type := mkRequest { conn : Conn; path : ObjectPath }.

(** The sender as it appears in the path: the first two statements of
    [newRequest]. *)
Definition sanitize (sender : string) : string :=
  let sender := fst (strings.CutPrefix sender ":") in
  strings.ReplaceAll sender "." "_".

(** [func newRequest(conn *dbus.Conn, sender string, token string) *request] *)
Definition newRequest (conn : Conn) (sender token : string) : request :=
  let sender := sanitize sender in
  let path := fmt.Sprintf "/org/freedesktop/portal/desktop/request/%s/%s" [sender; token] in
  mkRequest conn path.

(** [func (r *request) response(errcode uint32, results kv)] *)
Definition response (r : request) (errcode : Z) (results : kv) : M unit :=
  let name := "org.freedesktop.portal.Request.Response" in
  err ← ask (fun w => w_Emit w (conn r) (path r) name errcode results);
  tell (EvEmit (conn r) (path r) name errcode results err);;
  match err with
  | Some e => throw (fmtException "can not send response: %v" [e])
  | None => mret tt
  end.

(** A type assertion [v.(string)]: a run-time panic unless the dynamic type
    of [v] is [string]. *)
Definition assert_string (v : iface) : M string :=
  match v with
  | Some (Dstring s) => mret s
  | Some d =>
      panic (PRuntimeError
               ("interface conversion: interface {} is " +:+ type_name d +:+ ", not string"))
  | None => panic (PRuntimeError "interface conversion: interface {} is nil, not string")
  end.

(** ** The interfaces *)

Module OpenURI.

(** [type OpenURI struct { portal *portal }] *)
Record t : Type := mk { portal_of : portal }.

(** The detached task of [OpenURI]. *)
Definition task (uri : string) : M unit :=
  exc ← try (xdgOpen uri);
  catch exc (fun exc => Println [LStr "in OpenURI"; LErr (what exc tt)]).

(** [func (p *OpenURI) OpenURI(parent string, uri string, options *kv) *dbus.Error] *)
Definition OpenURI (p : t) (parent uri : string) (options : option kv) : M (option Error) :=
  Println [LStr "enter OpenURI"; LStr parent; LStr uri; LKvPtr options];;
  go (task uri);;
  mret None.

End OpenURI.

Module FileChooser.

(** [type FileChooser struct { portal *portal }] *)
Record t : Type := mk { portal_of : portal }.

(** The detached task of [OpenFile]. *)
Definition task (req : request) : M unit :=
  exc ← try (
    '(pat, err) ← exec_Output "zenity" ["--file-selection"];
    match err with
    | Some e =>
        Println [LErr e];;
        response req 1 ∅
    | None =>
        response req 0
          {[ "uris" := MakeVariant (Dstrings ["file://" +:+ strings.TrimSpace pat]) ]}
    end);
  catch exc (fun exc => Println [LStr "in OpenFile"; LErr (what exc tt)]).

(** [func (p *FileChooser) OpenFile(sender dbus.Sender, parent string,
    title string, options kv) (dbus.ObjectPath, *dbus.Error)] *)
Definition OpenFile (p : t) (sender : Sender) (parent title : string) (options : kv)
  : M (ObjectPath * option Error) :=
  Println [LStr "enter OpenFile"; LStr sender; LStr parent; LStr title; LKv options];;
  let tok := map_index options "handle_token" in
  token ← assert_string (Value tok);
  let req := newRequest (portal_conn (portal_of p)) sender token in
  go (task req);;
  mret (path req, None).

End FileChooser.

Module Settings.

(** [type Settings struct { portal *portal }] *)
Record t : Type := mk { portal_of : portal }.

(** [func box(v interface{}) *dbus.Variant]: the test [v == nil] holds of
    the nil interface only. *)
Definition box (v : iface) : option Variant :=
  match v with
  | None => None
  | Some d => let res := MakeVariant d in Some res
  end.

(** A [*dbus.Variant] passed where an [interface{}] is expected: the
    interface gets the dynamic type [*dbus.Variant] whether the pointer is
    nil or not. *)
Definition iface_of_ptr (p : option Variant) : iface := Some (DVariantPtr p).

(** [func (p *Settings) ReadOne(sender dbus.Sender, namespace string,
    key string) ( *dbus.Variant, *dbus.Error)] *)
Definition ReadOne (p : t) (sender : Sender) (namespace key : string)
  : M (option Variant * option Error) :=
  Println [LStr "enter ReadOne"; LStr sender; LStr namespace; LStr key];;
  let path := namespace +:+ "." +:+ key in
  if String.eqb path "org.freedesktop.appearance.color-scheme"
  then mret (box (Some (Duint32 1)), None)
  else mret (None, Some ErrMsgNoObject).

(** [func (p *Settings) Read(sender dbus.Sender, namespace string,
    key string) ( *dbus.Variant, *dbus.Error)] *)
Definition Read (p : t) (sender : Sender) (namespace key : string)
  : M (option Variant * option Error) :=
  '(res, err) ← ReadOne p sender namespace key;
  mret (box (iface_of_ptr res), err).

End Settings.

(** ** Bootstrap *)

(** [func bind(conn *dbus.Conn, service string)] *)
Definition bind (conn : Conn) (service : string) : M unit :=
  tell (EvRequestName conn service NameFlagDoNotQueue);;
  '(reply, err) ← ask (fun w => w_RequestName w conn service NameFlagDoNotQueue);
  match err with
  | Some e => throw (fmtException "can not request name %s: %w" [service; e])
  | None => mret tt
  end;;
  if is_primary_owner reply then mret tt
  else throw (fmtException "name %s already taken" [service]).

(** [func sessionBus() *dbus.Conn] *)
Definition sessionBus : M Conn :=
  r ← ask w_ConnectSessionBus;
  match r with
  | inr err => throw (fmtException "can not connect session bus %w" [err])
  | inl conn => mret conn
  end.

(** [conn.Export(v, path, iface)]; the program drops the error it returns. *)
Definition conn_Export (conn : Conn) (path : ObjectPath) (iface_name : string) : M unit :=
  tell (EvExport conn path iface_name);;
  _ ← ask (fun w => w_Export w conn path iface_name);
  mret tt.

(** The property table of [run]. *)
Definition props : list (string * list (string * iface)) :=
  [ ("org.freedesktop.portal.OpenURI", [("version", Some (Duint32 4))]);
    ("org.freedesktop.portal.FileChooser", [("version", Some (Duint32 3))]);
    ("org.freedesktop.portal.Settings", [("version", Some (Duint32 1))]) ].

(** [func run()] *)
Definition run : M unit :=
  conn ← sessionBus;
  defer (tell (EvClose conn)) (
    let path := "/org/freedesktop/portal/desktop" in
    let portal := mkPortal conn in
    let ou := OpenURI.mk portal in
    conn_Export conn path "org.freedesktop.portal.OpenURI";;
    let fc := FileChooser.mk portal in
    conn_Export conn path "org.freedesktop.portal.FileChooser";;
    let st := Settings.mk portal in
    conn_Export conn path "org.freedesktop.portal.Settings";;
    tell (EvPropExport conn path);;
    err ← ask (fun w => w_PropExport w conn path props);
    match err with
    | Some e => throw (fmtException "can not bind properties: %w" [e])
    | None => mret tt
    end;;
    bind conn "org.freedesktop.portal.Desktop";;
    select_forever).

(** [func main()] *)
Definition main : M unit :=
  exc ← try run;
  catch exc (fun exc => fatal exc 1 "abort").

(** ** Reading an execution *)

(** All events of an execution: its own and those of the tasks it detached. *)
Definition all_events {A} (r : Exec A) : list event :=
  trace r ++ List.concat (List.map g_trace (spawned r)).

Definition is_emit (e : event) : bool :=
  match e with EvEmit _ _ _ _ _ _ => true | _ => false end.

(** The signals an execution emits, in order. *)
Definition signals {A} (r : Exec A) : list event :=
  List.filter is_emit (all_events r).

(** No detached task ended in an uncaught panic or in an exit. *)
Definition returned (g : goroutine) : bool :=
  match g_outcome g with Ret _ => true | _ => false end.

Definition tasks_returned {A} (r : Exec A) : bool :=
  forallb returned (spawned r).

(** A world in which every call succeeds; the file picker prints [out]. *)
Definition good_world (out : string) : World := {|
  w_LookPath := fun prog => inl ("/usr/bin/" +:+ prog);
  w_Run := fun _ _ => None;
  w_Output := fun _ _ => (out, None);
  w_Emit := fun _ _ _ _ _ => None;
  w_ConnectSessionBus := inl (mkConn 0);
  w_Export := fun _ _ _ => None;
  w_PropExport := fun _ _ _ => None;
  w_RequestName := fun _ _ _ => (RequestNameReplyPrimaryOwner, None)
|}.

(** [s] holds no ["/"]. *)
Fixpoint no_slash (s : string) : bool :=
  match s with
  | EmptyString => true
  | String c s' => negb (Ascii.eqb c "/") && no_slash s'
  end.

(** ** Names used in the statements *)

(** Replacing ["."] by ["_"] is a byte-wise substitution. *)
Fixpoint dots_to_underscores (s : string) : string :=
  match s with
  | EmptyString => EmptyString
  | String c s' => String (if Ascii.eqb "." c then "_"%char else c) (dots_to_underscores s')
  end.

(** The name of the signal that ends a request. *)
Definition Response : string := "org.freedesktop.portal.Request.Response".

(** The results of a successful [OpenFile]: one URI under ["uris"]. *)
Definition uris (pat : string) : kv :=
  {[ "uris" := MakeVariant (Dstrings ["file://" +:+ strings.TrimSpace pat]) ]}.

(** The key of the one entry of the settings table. *)
Definition color_scheme : string := "org.freedesktop.appearance.color-scheme".

(** The boxed value [1]. *)
Definition boxed_one : Variant := MakeVariant (Duint32 1).

(** The launcher and its arguments. *)
Definition launcher : string := "xdg-open-dispatch".

(** A world without the launcher on the search path. *)
Definition no_launcher_world : World := {|
  w_LookPath := fun prog => inr "executable file not found in $PATH";
  w_Run := fun _ _ => None;
  w_Output := fun _ _ => ("", Some "exit status 1");
  w_Emit := fun _ _ _ _ _ => Some "dbus: connection closed by user";
  w_ConnectSessionBus := inr "dbus: couldn't determine address of session bus";
  w_Export := fun _ _ _ => None;
  w_PropExport := fun _ _ _ => None;
  w_RequestName := fun _ _ _ => (RequestNameReplyExists, None)
|}.

Definition desktop_path : ObjectPath := "/org/freedesktop/portal/desktop".
Definition desktop_name : string := "org.freedesktop.portal.Desktop".

(** The events of [run] up to the export of the properties. *)
Definition exports (c : Conn) : list event :=
  [EvExport c desktop_path "org.freedesktop.portal.OpenURI";
   EvExport c desktop_path "org.freedesktop.portal.FileChooser";
   EvExport c desktop_path "org.freedesktop.portal.Settings";
   EvPropExport c desktop_path].

(** The diagnostic of [fatal(1, "abort")]. *)
Definition abort (msg : string) : event := EvStderr ("abort: " +:+ msg +:+ newline).

(** A world in which another process owns the service name. *)
Definition name_taken_world : World := {|
  w_LookPath := fun prog => inl ("/usr/bin/" +:+ prog);
  w_Run := fun _ _ => None;
  w_Output := fun _ _ => ("", None);
  w_Emit := fun _ _ _ _ _ => None;
  w_ConnectSessionBus := inl (mkConn 0);
  w_Export := fun _ _ _ => None;
  w_PropExport := fun _ _ _ => None;
  w_RequestName := fun _ _ _ => (RequestNameReplyExists, None)
|}.

(** [s] holds no ["."]. *)
Fixpoint no_dot (s : string) : bool :=
  match s with
  | EmptyString => true
  | String c s' => negb (Ascii.eqb c ".") && no_dot s'
  end.

(** Every byte of [s] is ASCII white space (tab, line feed, vertical tab,
    form feed, carriage return or space). *)
Fixpoint all_space (s : string) : bool :=
  match s with
  | EmptyString => true
  | String c s' => strings.space1 (N_of_ascii c) && all_space s'
  end.

(** All the ways to write [s] as [namespace ++ "." ++ key]. *)
Fixpoint splits_at_dot (s : string) : list (string * string) :=
  match s with
  | EmptyString => []
  | String c s' =>
      (if Ascii.eqb c "." then [(EmptyString, s')] else [])
      ++ List.map (fun nk => (String c (fst nk), snd nk)) (splits_at_dot s')
  end.

Definition is_stderr (e : event) : bool :=
  match e with EvStderr _ => true | _ => false end.

Definition is_spawn (e : event) : bool :=
  match e with EvSpawn _ _ => true | _ => false end.

Definition is_request_name (e : event) : bool :=
  match e with EvRequestName _ _ _ => true | _ => false end.

(** The world [w] with other answers to [conn.Export]. *)
Definition with_Export (f : Conn -> ObjectPath -> string -> option error) (w : World) : World := {|
  w_LookPath := w_LookPath w;
  w_Run := w_Run w;
  w_Output := w_Output w;
  w_Emit := w_Emit w;
  w_ConnectSessionBus := w_ConnectSessionBus w;
  w_Export := f;
  w_PropExport := w_PropExport w;
  w_RequestName := w_RequestName w
|}.

(** A world in which the bus rejects the properties. *)
Definition props_rejected_world : World := {|
  w_LookPath := fun prog => inl ("/usr/bin/" +:+ prog);
  w_Run := fun _ _ => Some "exit status 3";
  w_Output := fun _ _ => ("", None);
  w_Emit := fun _ _ _ _ _ => None;
  w_ConnectSessionBus := inl (mkConn 0);
  w_Export := fun _ _ _ => None;
  w_PropExport := fun _ _ _ => Some "dbus: invalid property";
  w_RequestName := fun _ _ _ => (RequestNameReplyPrimaryOwner, None)
|}.

(** The byte [a] is an ASCII white space. *)
Definition space_byte (a : ascii) : bool := strings.space1 (N_of_ascii a).

(** [exec.Command(name, arg...).Output()] on a helper that never exits:
    the call is made and does not come back. *)
Definition exec_Output_hangs (name : string) (arg : list string) : M (string * option error) :=
  tell (EvSpawn name (name :: arg));;
  select_forever.

(** The detached task of [OpenFile], by what its call of the file picker
    does: the body of [FileChooser.task] with that one call taken out. *)
Definition OpenFile_task_on (output : M (string * option error)) (req : request) : M unit :=
  exc ← try (
    '(pat, err) ← output;
    match err with
    | Some e =>
        Println [LErr e];;
        response req 1 ∅
    | None =>
        response req 0
          {[ "uris" := MakeVariant (Dstrings ["file://" +:+ strings.TrimSpace pat]) ]}
    end);
  catch exc (fun exc => Println [LStr "in OpenFile"; LErr (what exc tt)]).

(** * Properties *)

(** ** Strings and paths *)

#[local] Arguments String.append !s1 s2 : simpl nomatch.

Lemma append_empty_r (s : string) : s +:+ "" = s.
Proof. induction s as [|c s IH]; simpl; [reflexivity | now rewrite IH]. Qed.

Lemma append_inj_l (p x y : string) : p +:+ x = p +:+ y -> x = y.
Proof.
  induction p as [|c p IH]; simpl; intros H; [exact H |].
  injection H as H. now apply IH.
Qed.

Lemma length_append (s t : string) :
  String.length (s +:+ t) = (String.length s + String.length t)%nat.
Proof. induction s as [|c s IH]; simpl; [reflexivity | now rewrite IH]. Qed.

Lemma append_inj_r (x y t : string) : x +:+ t = y +:+ t -> x = y.
Proof.
  intros H.
  assert (Hlen : String.length x = String.length y).
  { apply (f_equal String.length) in H. rewrite !length_append in H. lia. }
  revert y H Hlen. induction x as [|c x IH]; intros [|d y] H Hlen; simpl in *;
    try discriminate; [reflexivity |].
  injection H as -> H. f_equal. apply IH; [exact H | lia].
Qed.

(** The path of a request, written out. *)
Lemma newRequest_path (c : Conn) (sender token : string) :
  path (newRequest c sender token)
  = "/org/freedesktop/portal/desktop/request/" +:+ sanitize sender +:+ "/" +:+ token.
Proof.
  unfold newRequest. simpl. now rewrite append_empty_r.
Qed.

(** A segment without ["/"] ends at the first ["/"]: the two parts of
    [segment/rest] can be read back. *)
Lemma segment_split (s1 s2 t1 t2 : string) :
  no_slash s1 = true -> no_slash s2 = true ->
  s1 +:+ "/" +:+ t1 = s2 +:+ "/" +:+ t2 -> s1 = s2 /\ t1 = t2.
Proof.
  revert s2. induction s1 as [|c s1 IH]; intros [|d s2] H1 H2 H; simpl in *.
  - injection H as H. now split.
  - injection H as Hc _. subst d. simpl in H2. discriminate.
  - injection H as Hc _. subst c. simpl in H1. discriminate.
  - injection H as -> H.
    apply andb_prop in H1 as [_ H1]. apply andb_prop in H2 as [_ H2].
    destruct (IH s2 H1 H2 H) as [-> ->]. now split.
Qed.

Lemma ReplaceAll_dots (s : string) :
  strings.ReplaceAll s "." "_" = dots_to_underscores s.
Proof.
  unfold strings.ReplaceAll.
  induction s as [|c s IH]; [reflexivity |].
  change (strings.replace_scan 0 (String c s) "." "_")
    with (if (if Ascii.eqb "." c then true else false)
          then String "_" (strings.replace_scan 0 s "." "_")
          else String c (strings.replace_scan 0 s "." "_")).
  change (dots_to_underscores (String c s))
    with (String (if Ascii.eqb "." c then "_"%char else c) (dots_to_underscores s)).
  rewrite IH. now destruct (Ascii.eqb "." c).
Qed.

(** The unique name [":" ++ s] is sanitized to [s] with its dots replaced. *)
Lemma sanitize_unique_name (s : string) :
  sanitize (String ":" s) = dots_to_underscores s.
Proof. unfold sanitize. simpl. apply ReplaceAll_dots. Qed.

(** A sender without ["/"] has none after sanitization either. *)
Lemma dots_to_underscores_no_slash (s : string) :
  no_slash s = true -> no_slash (dots_to_underscores s) = true.
Proof.
  induction s as [|c s IH]; [reflexivity |].
  cbn [no_slash dots_to_underscores]. intros H.
  apply andb_prop in H as [Hc Hs]. rewrite (IH Hs), andb_true_r.
  destruct (Ascii.eqb "." c); [reflexivity | exact Hc].
Qed.

Lemma sanitize_no_slash (sender : string) :
  no_slash sender = true -> no_slash (sanitize sender) = true.
Proof.
  intros H. unfold sanitize. rewrite ReplaceAll_dots.
  apply dots_to_underscores_no_slash.
  unfold strings.CutPrefix. destruct (strings.HasPrefix sender ":"); [| exact H].
  destruct sender as [|c s]; [reflexivity |].
  cbn [fst String.length strings.drop]. cbn [no_slash] in H.
  now apply andb_prop in H as [_ H].
Qed.

(** ** Running the monad *)

(** Unfolds the combinators of [M] in the goal. *)
Ltac run_M :=
  cbv [mbind M_bind mret M_ret seq pure tell ask go try catch throw panic
       Println os_Exit select_forever defer
       result trace spawned g_outcome g_trace];
  cbn [app].

(** The messages of the exceptions the program throws. *)
Lemma msg_send_response (e : error) :
  what (fmtException "can not send response: %v" [e]) tt = "can not send response: " +:+ e.
Proof. unfold fmtException, newException. simpl. now rewrite append_empty_r. Qed.

Lemma msg_can_not_find (prog : string) (e : error) :
  what (fmtException "can not find %s: %v" [prog; e]) tt
  = "can not find " +:+ prog +:+ ": " +:+ e.
Proof. unfold fmtException, newException. simpl. now rewrite append_empty_r. Qed.

Lemma msg_xdg_open (e : error) :
  what (fmtException "xdg-open-dispatch: %v" [e]) tt = "xdg-open-dispatch: " +:+ e.
Proof. unfold fmtException, newException. simpl. now rewrite append_empty_r. Qed.

(** ** The path of a request *)

(** C2. With [options["handle_token"] = "abc"] and the sender [":1.7"],
    [OpenFile] returns the path
    [/org/freedesktop/portal/desktop/request/1_7/abc], whatever the world
    answers later; the sender [":1.42"] is sanitized to ["1_42"], and in
    general a sender [":" ++ s] to [s] with every ["."] replaced by ["_"]. *)
Theorem OpenFile_returns_request_path
    (p : FileChooser.t) (parent title : string) (options : kv) (tok : Variant) (w : World) :
  options !! "handle_token" = Some tok ->
  Value tok = Some (Dstring "abc") ->
  result (FileChooser.OpenFile p ":1.7" parent title options w)
    = Ret ("/org/freedesktop/portal/desktop/request/1_7/abc", None)
  /\ sanitize ":1.42" = "1_42"
  /\ (forall s, sanitize (String ":" s) = dots_to_underscores s).
Proof.
  intros Hlook Hval. split; [| split; [reflexivity | apply sanitize_unique_name]].
  unfold FileChooser.OpenFile, map_index. rewrite Hlook, Hval.
  unfold assert_string. run_M. reflexivity.
Qed.

Lemma OpenFile_returns_request_path_witness :
  result (FileChooser.OpenFile (FileChooser.mk (mkPortal (mkConn 0))) ":1.7" "" "Open"
            {[ "handle_token" := MakeVariant (Dstring "abc") ]} (good_world ""))
    = Ret ("/org/freedesktop/portal/desktop/request/1_7/abc", None)
  /\ sanitize ":1.42" = "1_42"
  /\ (forall s, sanitize (String ":" s) = dots_to_underscores s).
Proof.
  apply (OpenFile_returns_request_path _ _ _ _ (MakeVariant (Dstring "abc")));
    reflexivity.
Defined.

(** Why the senders must be names of the bus: called with the strings
    ["a/b"] and ["a"], which no bus gives, and the tokens ["c"] and
    ["b/c"], [newRequest] makes the same path twice. *)
Lemma newRequest_path_collision :
  sanitize "a/b" <> sanitize "a" /\ "c" <> "b/c"
  /\ path (newRequest (mkConn 0) "a/b" "c") = path (newRequest (mkConn 0) "a" "b/c").
Proof.
  split; [vm_compute; discriminate |].
  split; [discriminate |].
  vm_compute. reflexivity.
Qed.

(** The path by its two parts, for any two strings as senders.  The path
    is a function of the sanitized sender and the token.  Two requests
    with the same sanitized sender and different tokens, or with the same
    token and different sanitized senders, have different paths; and when
    neither sanitized sender holds a ["/"], two requests that differ in
    the token or in the sanitized sender have different paths. *)
Theorem newRequest_path_injective (c1 c2 : Conn) (S1 T1 S2 T2 : string) :
  (sanitize S1 = sanitize S2 -> T1 = T2 ->
     path (newRequest c1 S1 T1) = path (newRequest c2 S2 T2))
  /\ (sanitize S1 = sanitize S2 -> T1 <> T2 ->
        path (newRequest c1 S1 T1) <> path (newRequest c2 S2 T2))
  /\ (T1 = T2 -> sanitize S1 <> sanitize S2 ->
        path (newRequest c1 S1 T1) <> path (newRequest c2 S2 T2))
  /\ (no_slash (sanitize S1) = true -> no_slash (sanitize S2) = true ->
      T1 <> T2 \/ sanitize S1 <> sanitize S2 ->
        path (newRequest c1 S1 T1) <> path (newRequest c2 S2 T2)).
Proof.
  rewrite !newRequest_path. repeat split.
  - intros -> ->. reflexivity.
  - intros -> HT H. apply HT.
    apply append_inj_l, append_inj_l in H. now injection H.
  - intros -> HS H. apply HS.
    apply append_inj_l in H. now apply (append_inj_r _ _ ("/" +:+ T2)).
  - intros H1 H2 Hne H. apply append_inj_l in H.
    destruct (segment_split _ _ _ _ H1 H2 H) as [HS HT].
    destruct Hne as [Hne | Hne]; now apply Hne.
Qed.

Lemma newRequest_path_injective_witness :
  path (newRequest (mkConn 0) ":1.7" "abc") <> path (newRequest (mkConn 0) ":1.42" "abc").
Proof.
  apply (newRequest_path_injective (mkConn 0) (mkConn 0) ":1.7" "abc" ":1.42" "abc").
  - reflexivity.
  - reflexivity.
  - right. discriminate.
Defined.

(** C3. For all senders and tokens, the senders being names the bus gives
    (they hold no ["/"]), the path of [newRequest] is a function of the
    sender and the token: equal pairs give equal paths, and two pairs that
    differ in the token or in the sanitized sender give different paths. *)
Theorem newRequest_path_of_bus_senders (c1 c2 : Conn) (S1 T1 S2 T2 : string) :
  no_slash S1 = true -> no_slash S2 = true ->
  (S1 = S2 -> T1 = T2 -> path (newRequest c1 S1 T1) = path (newRequest c2 S2 T2))
  /\ (T1 <> T2 \/ sanitize S1 <> sanitize S2 ->
      path (newRequest c1 S1 T1) <> path (newRequest c2 S2 T2)).
Proof.
  intros H1 H2. rewrite !newRequest_path. split.
  - intros -> ->. reflexivity.
  - intros Hne H. apply append_inj_l in H.
    destruct (segment_split _ _ _ _ (sanitize_no_slash _ H1) (sanitize_no_slash _ H2) H)
      as [HS HT].
    destruct Hne as [Hne | Hne]; now apply Hne.
Qed.

Lemma newRequest_path_of_bus_senders_witness :
  path (newRequest (mkConn 0) ":1.7" "abc") = path (newRequest (mkConn 1) ":1.7" "abc")
  /\ path (newRequest (mkConn 0) ":1.7" "a/b") <> path (newRequest (mkConn 0) ":1.7" "a").
Proof.
  split.
  - apply (newRequest_path_of_bus_senders (mkConn 0) (mkConn 1) ":1.7" "abc" ":1.7" "abc");
      reflexivity.
  - apply (newRequest_path_of_bus_senders (mkConn 0) (mkConn 0) ":1.7" "a/b" ":1.7" "a");
      [reflexivity | reflexivity | left; discriminate].
Defined.

(** ** FileChooser.OpenFile *)

(** What the detached task of [OpenFile] does, by the answer of the file
    picker and of the bus. *)
Lemma FileChooser_task_run (req : request) (w : World) :
  FileChooser.task req w =
    match w_Output w "zenity" ["--file-selection"] with
    | (pat, None) =>
        match w_Emit w (conn req) (path req) Response 0 (uris pat) with
        | None =>
            mkExec (Ret tt)
              [EvSpawn "zenity" ["zenity"; "--file-selection"];
               EvEmit (conn req) (path req) Response 0 (uris pat) None] []
        | Some e =>
            mkExec (Ret tt)
              [EvSpawn "zenity" ["zenity"; "--file-selection"];
               EvEmit (conn req) (path req) Response 0 (uris pat) (Some e);
               EvLog [LStr "in OpenFile"; LErr ("can not send response: " +:+ e)]] []
        end
    | (pat, Some err) =>
        match w_Emit w (conn req) (path req) Response 1 ∅ with
        | None =>
            mkExec (Ret tt)
              [EvSpawn "zenity" ["zenity"; "--file-selection"];
               EvLog [LErr err];
               EvEmit (conn req) (path req) Response 1 ∅ None] []
        | Some e =>
            mkExec (Ret tt)
              [EvSpawn "zenity" ["zenity"; "--file-selection"];
               EvLog [LErr err];
               EvEmit (conn req) (path req) Response 1 ∅ (Some e);
               EvLog [LStr "in OpenFile"; LErr ("can not send response: " +:+ e)]] []
        end
    end.
Proof.
  unfold FileChooser.task, exec_Output, response, uris, Response. run_M.
  destruct (w_Output w "zenity" ["--file-selection"]) as [pat [err|]]; run_M.
  - destruct (w_Emit w (conn req) (path req) _ 1 ∅) as [e|]; run_M;
      rewrite ?msg_send_response; reflexivity.
  - destruct (w_Emit w (conn req) (path req) _ 0 _) as [e|]; run_M;
      rewrite ?msg_send_response; reflexivity.
Qed.

(** What [OpenFile] does once the token is a string: it returns the path of
    the request and leaves one detached task behind. *)
Lemma OpenFile_run
    (p : FileChooser.t) (sender : Sender) (parent title : string) (options : kv)
    (tok : Variant) (token : string) (w : World) :
  options !! "handle_token" = Some tok ->
  Value tok = Some (Dstring token) ->
  let req := newRequest (portal_conn (FileChooser.portal_of p)) sender token in
  let t := FileChooser.task req w in
  FileChooser.OpenFile p sender parent title options w
  = mkExec (Ret (path req, None))
      [EvLog [LStr "enter OpenFile"; LStr sender; LStr parent; LStr title; LKv options]]
      (mkGoroutine (result t) (trace t) :: spawned t).
Proof.
  intros Hlook Hval req t.
  unfold FileChooser.OpenFile, map_index. rewrite Hlook, Hval.
  unfold assert_string. run_M. subst t req. now rewrite app_nil_r.
Qed.

(** C1, as stated, fails: a call whose options carry no ["handle_token"]
    is a run of [OpenFile] that emits no [Response] signal at all. *)
Lemma OpenFile_without_token_no_response :
  signals (FileChooser.OpenFile (FileChooser.mk (mkPortal (mkConn 0)))
             ":1.7" "" "Open" ∅ (good_world "/home/user/file.txt"))
  = [].
Proof. vm_compute. reflexivity. Qed.

(** C1, amended.  For every run of [OpenFile] whose options carry a string
    under ["handle_token"] and in which the call of the file picker
    returns (as every call does in a [World]), the run calls [Emit] for
    [Response] exactly once, on the path it returned: with error code 0
    and the one URI [file://<trimmed output>] under ["uris"] when the file
    picker succeeded, with error code 1 and empty results when it failed.
    A file picker that never exits is [OpenFile_task_hanging_picker]. *)
Theorem OpenFile_exactly_one_response
    (p : FileChooser.t) (sender : Sender) (parent title : string) (options : kv)
    (tok : Variant) (token : string) (w : World) :
  options !! "handle_token" = Some tok ->
  Value tok = Some (Dstring token) ->
  let req := newRequest (portal_conn (FileChooser.portal_of p)) sender token in
  let r := FileChooser.OpenFile p sender parent title options w in
  result r = Ret (path req, None)
  /\ length (signals r) = 1%nat
  /\ (forall pat, w_Output w "zenity" ["--file-selection"] = (pat, None) ->
      exists err,
        signals r = [EvEmit (conn req) (path req) Response 0
                       {[ "uris" := MakeVariant (Dstrings ["file://" +:+ strings.TrimSpace pat]) ]}
                       err])
  /\ (forall pat e, w_Output w "zenity" ["--file-selection"] = (pat, Some e) ->
      exists err, signals r = [EvEmit (conn req) (path req) Response 1 ∅ err]).
Proof.
  intros Hlook Hval req r. subst r.
  rewrite (OpenFile_run _ _ _ _ _ _ _ _ Hlook Hval). fold req.
  rewrite FileChooser_task_run. unfold signals, all_events, uris.
  destruct (w_Output w "zenity" ["--file-selection"]) as [pat [e|]].
  - destruct (w_Emit w (conn req) (path req) Response 1 ∅) as [e'|];
      (split; [reflexivity |]); (split; [reflexivity |]);
      (split; [intros ? [=] | intros ? ? [= <- <-]; eexists; reflexivity]).
  - destruct (w_Emit w (conn req) (path req) Response 0 _) as [e'|];
      (split; [reflexivity |]); (split; [reflexivity |]);
      (split; [intros ? [= <-]; eexists; reflexivity | intros ? ? [=]]).
Qed.

Lemma OpenFile_exactly_one_response_witness :
  exists err,
    signals (FileChooser.OpenFile (FileChooser.mk (mkPortal (mkConn 0))) ":1.7" "" "Open"
               {[ "handle_token" := MakeVariant (Dstring "abc") ]}
               (good_world ("/home/user/file.txt" +:+ newline)))
    = [EvEmit (mkConn 0) "/org/freedesktop/portal/desktop/request/1_7/abc" Response 0
         {[ "uris" := MakeVariant (Dstrings ["file:///home/user/file.txt"]) ]} err].
Proof.
  pose proof (OpenFile_exactly_one_response (FileChooser.mk (mkPortal (mkConn 0)))
                ":1.7" "" "Open" {[ "handle_token" := MakeVariant (Dstring "abc") ]}
                (MakeVariant (Dstring "abc")) "abc"
                (good_world ("/home/user/file.txt" +:+ newline))) as H.
  assert (Hlook : ({[ "handle_token" := MakeVariant (Dstring "abc") ]} : kv) !! "handle_token"
                  = Some (MakeVariant (Dstring "abc"))) by reflexivity.
  destruct (H Hlook eq_refl) as (_ & _ & Hok & _).
  exact (Hok ("/home/user/file.txt" +:+ newline) eq_refl).
Defined.

(** The task of [OpenFile] is [OpenFile_task_on] at the call whose answer
    the world gives. *)
Lemma OpenFile_task_on_world (req : request) :
  FileChooser.task req = OpenFile_task_on (exec_Output "zenity" ["--file-selection"]) req.
Proof. reflexivity. Qed.

(** The runs that the worlds leave out: when the file picker never exits,
    the task stays in its call for ever; it has started the file picker
    and emits no [Response], in any world. *)
Lemma OpenFile_task_hanging_picker (req : request) (w : World) :
  OpenFile_task_on (exec_Output_hangs "zenity" ["--file-selection"]) req w
  = mkExec Block [EvSpawn "zenity" ["zenity"; "--file-selection"]] [].
Proof. unfold OpenFile_task_on, exec_Output_hangs. run_M. reflexivity. Qed.

(** C7. When the options carry no ["handle_token"], or carry one that is
    not a string, [OpenFile] does not return: the type assertion panics
    with a run-time error, which is not an [*Exception]; nothing was
    detached and nothing is emitted. *)
Theorem OpenFile_token_assertion_panics
    (p : FileChooser.t) (sender : Sender) (parent title : string) (options : kv) (w : World) :
  options !! "handle_token" = None
  \/ (exists tok, options !! "handle_token" = Some tok
                  /\ forall s, Value tok <> Some (Dstring s)) ->
  let r := FileChooser.OpenFile p sender parent title options w in
  (exists msg, result r = Panic (PRuntimeError msg))
  /\ spawned r = []
  /\ signals r = [].
Proof.
  intros H r. subst r. unfold signals, all_events, FileChooser.OpenFile, map_index.
  destruct H as [-> | (tok & -> & Hns)].
  - unfold zeroVariant, Value, assert_string. run_M.
    repeat split; [eexists |..]; reflexivity.
  - unfold assert_string. destruct (Value tok) as [[n|s|l|q]|]; run_M;
      try (repeat split; [eexists |..]; reflexivity).
    now destruct (Hns s).
Qed.

Lemma OpenFile_token_assertion_panics_witness :
  (exists msg,
     result (FileChooser.OpenFile (FileChooser.mk (mkPortal (mkConn 0))) ":1.7" "" "Open"
               {[ "handle_token" := MakeVariant (Duint32 7) ]} (good_world ""))
     = Panic (PRuntimeError msg))
  /\ signals (FileChooser.OpenFile (FileChooser.mk (mkPortal (mkConn 0))) ":1.7" "" "Open"
                ∅ (good_world ""))
     = [].
Proof.
  split.
  - apply (OpenFile_token_assertion_panics (FileChooser.mk (mkPortal (mkConn 0)))
             ":1.7" "" "Open" {[ "handle_token" := MakeVariant (Duint32 7) ]} (good_world "")).
    right. exists (MakeVariant (Duint32 7)). split; [reflexivity | discriminate].
  - apply (OpenFile_token_assertion_panics (FileChooser.mk (mkPortal (mkConn 0)))
             ":1.7" "" "Open" ∅ (good_world "")).
    left. reflexivity.
Defined.

(** ** Settings *)

(** What [ReadOne] does, by whether [namespace.key] is the entry. *)
Lemma ReadOne_run (p : Settings.t) (sender : Sender) (namespace key : string) (w : World) :
  Settings.ReadOne p sender namespace key w
  = mkExec
      (Ret (if String.eqb (namespace +:+ "." +:+ key) color_scheme
            then (Some boxed_one, None)
            else (None, Some ErrMsgNoObject)))
      [EvLog [LStr "enter ReadOne"; LStr sender; LStr namespace; LStr key]] [].
Proof.
  unfold Settings.ReadOne, color_scheme. run_M.
  now destruct (String.eqb _ _).
Qed.

(** C4, as stated, fails: [ReadOne("org.freedesktop",
    "appearance.color-scheme")] is another call that returns the boxed
    value 1. *)
Lemma ReadOne_other_pair_hits :
  ("org.freedesktop", "appearance.color-scheme")
    <> ("org.freedesktop.appearance", "color-scheme")
  /\ result (Settings.ReadOne (Settings.mk (mkPortal (mkConn 0))) ":1.7"
               "org.freedesktop" "appearance.color-scheme" (good_world ""))
     = Ret (Some boxed_one, None).
Proof. split; [discriminate | vm_compute; reflexivity]. Qed.

(** C4, amended.  [ReadOne] returns the boxed value 1 exactly when
    [namespace + "." + key] is ["org.freedesktop.appearance.color-scheme"],
    as it is for [ReadOne("org.freedesktop.appearance", "color-scheme")];
    for every other pair it returns nil and the no-such-object error. *)
Theorem ReadOne_hits_exactly_the_entry
    (p : Settings.t) (sender : Sender) (namespace key : string) (w : World) :
  (namespace +:+ "." +:+ key = color_scheme
   <-> result (Settings.ReadOne p sender namespace key w) = Ret (Some boxed_one, None))
  /\ (namespace +:+ "." +:+ key <> color_scheme
      -> result (Settings.ReadOne p sender namespace key w) = Ret (None, Some ErrMsgNoObject))
  /\ result (Settings.ReadOne p sender "org.freedesktop.appearance" "color-scheme" w)
     = Ret (Some boxed_one, None).
Proof.
  rewrite !ReadOne_run. cbn [result].
  destruct (String.eqb_spec (namespace +:+ "." +:+ key) color_scheme) as [Heq | Hne].
  - split; [tauto |]. split; [intros Hne; now destruct Hne | reflexivity].
  - split; [split; [intros Heq; now destruct Hne | discriminate] |].
    split; reflexivity.
Qed.

Lemma ReadOne_hits_exactly_the_entry_witness :
  result (Settings.ReadOne (Settings.mk (mkPortal (mkConn 0))) ":1.7"
            "org.freedesktop.appearance" "color-theme" (good_world ""))
  = Ret (None, Some ErrMsgNoObject).
Proof.
  apply (ReadOne_hits_exactly_the_entry (Settings.mk (mkPortal (mkConn 0))) ":1.7"
           "org.freedesktop.appearance" "color-theme" (good_world "")).
  discriminate.
Defined.

(** What [Read] does: the pointer [ReadOne] returns, nil or not, is boxed. *)
Lemma Read_run (p : Settings.t) (sender : Sender) (namespace key : string) (w : World) :
  Settings.Read p sender namespace key w
  = mkExec
      (Ret (if String.eqb (namespace +:+ "." +:+ key) color_scheme
            then (Some (MakeVariant (DVariantPtr (Some boxed_one))), None)
            else (Some (MakeVariant (DVariantPtr None)), Some ErrMsgNoObject)))
      [EvLog [LStr "enter ReadOne"; LStr sender; LStr namespace; LStr key]] [].
Proof.
  unfold Settings.Read. run_M. rewrite ReadOne_run.
  now destruct (String.eqb _ _).
Qed.

(** C5. For every namespace and key, the value [Read] returns is the value
    [ReadOne] returns in one more variant, and the error is the same. *)
Theorem Read_boxes_ReadOne
    (p : Settings.t) (sender : Sender) (namespace key : string) (w : World) :
  exists (res : option Variant) (err : option Error),
    result (Settings.ReadOne p sender namespace key w) = Ret (res, err)
    /\ result (Settings.Read p sender namespace key w)
       = Ret (Some (MakeVariant (DVariantPtr res)), err)
    /\ trace (Settings.Read p sender namespace key w)
       = trace (Settings.ReadOne p sender namespace key w).
Proof.
  rewrite Read_run, ReadOne_run. cbn [result trace].
  destruct (String.eqb _ _); eexists _, _; repeat split; reflexivity.
Qed.

(** On the entry, [Read] returns the value 1 boxed twice. *)
Lemma Read_color_scheme (p : Settings.t) (sender : Sender) (w : World) :
  result (Settings.Read p sender "org.freedesktop.appearance" "color-scheme" w)
  = Ret (Some (mkVariant "v" (Some (DVariantPtr (Some (mkVariant "u" (Some (Duint32 1))))))),
         None).
Proof. rewrite Read_run. reflexivity. Qed.

(** The nil test of [box] never holds of a pointer, even a nil one. *)
Lemma box_of_ptr_not_nil (q : option Variant) :
  Settings.box (Settings.iface_of_ptr q) <> None.
Proof. discriminate. Qed.

(** C10, on the code: on a miss [Read] does not return what [ReadOne]
    returns.  [ReadOne] returns a nil pointer; [Read] returns a pointer to
    a variant that holds that nil pointer. *)
Lemma Read_miss_is_not_nil :
  result (Settings.ReadOne (Settings.mk (mkPortal (mkConn 0))) ":1.7"
            "org.example" "missing" (good_world ""))
  = Ret (None, Some ErrMsgNoObject)
  /\ result (Settings.Read (Settings.mk (mkPortal (mkConn 0))) ":1.7"
               "org.example" "missing" (good_world ""))
     = Ret (Some (mkVariant "v" (Some (DVariantPtr None))), Some ErrMsgNoObject).
Proof. rewrite Read_run, ReadOne_run. split; reflexivity. Qed.

(** ** OpenURI and the failures of detached tasks *)

(** What the detached task of [OpenURI] does, by the answers of the
    operating system. *)
Lemma OpenURI_task_run (uri : string) (w : World) :
  OpenURI.task uri w =
    match w_LookPath w launcher with
    | inr err =>
        mkExec (Ret tt)
          [EvLog [LStr "in OpenURI"; LErr ("can not find xdg-open-dispatch: " +:+ err)]] []
    | inl path =>
        match w_Run w path [launcher; uri] with
        | Some e =>
            mkExec (Ret tt)
              [EvSpawn path [launcher; uri];
               EvLog [LStr "in OpenURI"; LErr ("xdg-open-dispatch: " +:+ e)]] []
        | None => mkExec (Ret tt) [EvSpawn path [launcher; uri]] []
        end
    end.
Proof.
  unfold OpenURI.task, xdgOpen, lookPath, launcher. run_M.
  destruct (w_LookPath w "xdg-open-dispatch") as [path | err]; run_M.
  - destruct (w_Run w path _) as [e|]; run_M; rewrite ?msg_xdg_open; reflexivity.
  - rewrite msg_can_not_find. reflexivity.
Qed.

(** C6. [OpenURI] returns nil, the only value of its result being an
    error, and no path; no signal is emitted by the call or by the task it
    detaches, also when the launcher is not found or fails: then the task
    logs the failure and returns. *)
Theorem OpenURI_no_path_no_signal
    (p : OpenURI.t) (parent uri : string) (options : option kv) (w : World) :
  let r := OpenURI.OpenURI p parent uri options w in
  let enter := EvLog [LStr "enter OpenURI"; LStr parent; LStr uri; LKvPtr options] in
  result r = Ret None
  /\ signals r = []
  /\ tasks_returned r = true
  /\ (forall err, w_LookPath w launcher = inr err ->
        all_events r
        = [enter;
           EvLog [LStr "in OpenURI"; LErr ("can not find xdg-open-dispatch: " +:+ err)]])
  /\ (forall path e, w_LookPath w launcher = inl path ->
        w_Run w path [launcher; uri] = Some e ->
        all_events r
        = [enter; EvSpawn path [launcher; uri];
           EvLog [LStr "in OpenURI"; LErr ("xdg-open-dispatch: " +:+ e)]]).
Proof.
  intros r enter. subst r enter.
  unfold OpenURI.OpenURI, signals, tasks_returned, all_events. run_M.
  rewrite OpenURI_task_run.
  split; [| split; [| split; [| split]]].
  1-3: destruct (w_LookPath w launcher) as [path | err];
       [destruct (w_Run w path [launcher; uri]) |]; reflexivity.
  - intros err ->. reflexivity.
  - intros path e -> ->. reflexivity.
Qed.

Lemma OpenURI_no_path_no_signal_witness :
  all_events (OpenURI.OpenURI (OpenURI.mk (mkPortal (mkConn 0))) "" "https://example.org"
                None no_launcher_world)
  = [EvLog [LStr "enter OpenURI"; LStr ""; LStr "https://example.org"; LKvPtr None];
     EvLog [LStr "in OpenURI";
            LErr "can not find xdg-open-dispatch: executable file not found in $PATH"]].
Proof.
  apply (OpenURI_no_path_no_signal (OpenURI.mk (mkPortal (mkConn 0))) ""
           "https://example.org" None no_launcher_world).
  reflexivity.
Defined.

(** C8. The detached tasks always return: a launcher that is not found or
    fails, a file picker that fails and a [Response] that cannot be sent
    each leave a log line and nothing else.  When the bus refuses the
    signal, the task has called [Emit] once, logs the failure and ends:
    no second [Emit], no other event. *)
Theorem task_failures_are_logged (w : World) (uri : string) (req : request) :
  let tu := OpenURI.task uri w in
  let tf := FileChooser.task req w in
  result tu = Ret tt /\ spawned tu = []
  /\ result tf = Ret tt /\ spawned tf = []
  /\ (forall err, w_LookPath w launcher = inr err ->
        trace tu
        = [EvLog [LStr "in OpenURI"; LErr ("can not find xdg-open-dispatch: " +:+ err)]])
  /\ (forall path e, w_LookPath w launcher = inl path ->
        w_Run w path [launcher; uri] = Some e ->
        trace tu
        = [EvSpawn path [launcher; uri];
           EvLog [LStr "in OpenURI"; LErr ("xdg-open-dispatch: " +:+ e)]])
  /\ (forall pat err, w_Output w "zenity" ["--file-selection"] = (pat, Some err) ->
        exists rest,
          trace tf = EvSpawn "zenity" ["zenity"; "--file-selection"] :: EvLog [LErr err] :: rest)
  /\ (forall e, (forall c p n code res, w_Emit w c p n code res = Some e) ->
        exists pre code res,
          trace tf
          = (pre ++ [EvEmit (conn req) (path req) Response code res (Some e);
                     EvLog [LStr "in OpenFile"; LErr ("can not send response: " +:+ e)]])%list
          /\ List.filter is_emit pre = []).
Proof.
  intros tu tf. subst tu tf.
  rewrite OpenURI_task_run, FileChooser_task_run.
  split; [| split]; [| | split; [| split]]; [| | | | split; [| split; [| split]]].
  1-2: destruct (w_LookPath w launcher) as [path | err];
       [destruct (w_Run w path [launcher; uri]) |]; reflexivity.
  1-2: destruct (w_Output w "zenity" ["--file-selection"]) as [pat [err|]];
       [destruct (w_Emit w _ _ _ 1 _) | destruct (w_Emit w _ _ _ 0 _)]; reflexivity.
  - intros err ->. reflexivity.
  - intros path e -> ->. reflexivity.
  - intros pat err ->. destruct (w_Emit w _ _ _ 1 _); eexists; reflexivity.
  - intros e He. destruct (w_Output w "zenity" ["--file-selection"]) as [pat [err|]];
      rewrite He.
    + exists [EvSpawn "zenity" ["zenity"; "--file-selection"]; EvLog [LErr err]], 1, ∅.
      split; reflexivity.
    + exists [EvSpawn "zenity" ["zenity"; "--file-selection"]], 0, (uris pat).
      split; reflexivity.
Qed.

Lemma task_failures_are_logged_witness :
  exists pre code res,
    trace (FileChooser.task (newRequest (mkConn 0) ":1.7" "abc") no_launcher_world)
    = (pre ++ [EvEmit (mkConn 0) "/org/freedesktop/portal/desktop/request/1_7/abc" Response
                 code res (Some "dbus: connection closed by user");
               EvLog [LStr "in OpenFile";
                      LErr "can not send response: dbus: connection closed by user"]])%list
    /\ List.filter is_emit pre = [].
Proof.
  apply (task_failures_are_logged no_launcher_world "https://example.org"
           (newRequest (mkConn 0) ":1.7" "abc")).
  reflexivity.
Defined.

(** ** Bootstrap *)

Lemma fatal_run (e : error) (w : World) :
  fatal (newException e) 1 "abort" w = mkExec (Exit 1) [abort e] [].
Proof. unfold fatal, abort. run_M. reflexivity. Qed.

Lemma Errorf_session_bus (e : error) :
  fmt.Sprintf "can not connect session bus %w" [e] = "can not connect session bus " +:+ e.
Proof. simpl. now rewrite append_empty_r. Qed.

Lemma Errorf_bind_properties (e : error) :
  fmt.Sprintf "can not bind properties: %w" [e] = "can not bind properties: " +:+ e.
Proof. simpl. now rewrite append_empty_r. Qed.

Lemma Errorf_request_name (service : string) (e : error) :
  fmt.Sprintf "can not request name %s: %w" [service; e]
  = "can not request name " +:+ service +:+ ": " +:+ e.
Proof. simpl. now rewrite append_empty_r. Qed.

(** What [main] does, by the answers of the bus. *)
Lemma main_run (w : World) :
  main w =
    match w_ConnectSessionBus w with
    | inr err => mkExec (Exit 1) [abort ("can not connect session bus " +:+ err)] []
    | inl c =>
        match w_PropExport w c desktop_path props with
        | Some e =>
            mkExec (Exit 1)
              (exports c ++ [EvClose c; abort ("can not bind properties: " +:+ e)]) []
        | None =>
            match w_RequestName w c desktop_name NameFlagDoNotQueue with
            | (_, Some e) =>
                mkExec (Exit 1)
                  (exports c ++
                   [EvRequestName c desktop_name NameFlagDoNotQueue; EvClose c;
                    abort ("can not request name org.freedesktop.portal.Desktop: " +:+ e)]) []
            | (reply, None) =>
                if is_primary_owner reply
                then mkExec Block
                       (exports c ++ [EvRequestName c desktop_name NameFlagDoNotQueue]) []
                else mkExec (Exit 1)
                       (exports c ++
                        [EvRequestName c desktop_name NameFlagDoNotQueue; EvClose c;
                         abort "name org.freedesktop.portal.Desktop already taken"]) []
            end
        end
    end.
Proof.
  unfold main, run, sessionBus, bind, conn_Export, fmtException, exports,
    desktop_path, desktop_name.
  run_M.
  destruct (w_ConnectSessionBus w) as [c | err]; run_M.
  - destruct (w_PropExport w c _ props) as [e|]; run_M.
    + rewrite fatal_run, Errorf_bind_properties. reflexivity.
    + destruct (w_RequestName w c _ NameFlagDoNotQueue) as [reply [e|]]; run_M.
      * rewrite fatal_run, Errorf_request_name. reflexivity.
      * destruct (is_primary_owner reply); run_M; [reflexivity |].
        rewrite fatal_run. reflexivity.
  - rewrite fatal_run, Errorf_session_bus. reflexivity.
Qed.

(** C9. When the session bus cannot be reached, when the export of the
    properties is rejected, when the request for the service name fails
    or is answered by anything but "primary owner", [main] writes
    [abort: <message>] to the diagnostic stream and exits with status 1. *)
Theorem bootstrap_failure_aborts (w : World) :
  (forall err, w_ConnectSessionBus w = inr err ->
     result (main w) = Exit 1
     /\ trace (main w) = [abort ("can not connect session bus " +:+ err)])
  /\ (forall c e, w_ConnectSessionBus w = inl c ->
        w_PropExport w c desktop_path props = Some e ->
        result (main w) = Exit 1
        /\ trace (main w)
           = (exports c ++ [EvClose c; abort ("can not bind properties: " +:+ e)])%list)
  /\ (forall c reply e, w_ConnectSessionBus w = inl c ->
        w_PropExport w c desktop_path props = None ->
        w_RequestName w c desktop_name NameFlagDoNotQueue = (reply, Some e) ->
        result (main w) = Exit 1
        /\ trace (main w)
           = (exports c ++
              [EvRequestName c desktop_name NameFlagDoNotQueue; EvClose c;
               abort ("can not request name org.freedesktop.portal.Desktop: " +:+ e)])%list)
  /\ (forall c reply, w_ConnectSessionBus w = inl c ->
        w_PropExport w c desktop_path props = None ->
        w_RequestName w c desktop_name NameFlagDoNotQueue = (reply, None) ->
        reply <> RequestNameReplyPrimaryOwner ->
        result (main w) = Exit 1
        /\ trace (main w)
           = (exports c ++
              [EvRequestName c desktop_name NameFlagDoNotQueue; EvClose c;
               abort "name org.freedesktop.portal.Desktop already taken"])%list).
Proof.
  rewrite main_run. split; [| split; [| split]].
  - intros err ->. split; reflexivity.
  - intros c e -> ->. split; reflexivity.
  - intros c reply e -> -> ->. split; reflexivity.
  - intros c reply -> -> -> Hne.
    destruct reply; [now destruct Hne | | |]; split; reflexivity.
Qed.

Lemma bootstrap_failure_aborts_witness :
  result (main name_taken_world) = Exit 1
  /\ trace (main name_taken_world)
     = (exports (mkConn 0) ++
        [EvRequestName (mkConn 0) desktop_name NameFlagDoNotQueue; EvClose (mkConn 0);
         abort "name org.freedesktop.portal.Desktop already taken"])%list.
Proof.
  destruct (bootstrap_failure_aborts name_taken_world) as (_ & _ & _ & Htaken).
  apply (Htaken (mkConn 0) RequestNameReplyExists);
    [reflexivity | reflexivity | reflexivity | discriminate].
Defined.

(** When every step of the bootstrap succeeds, [main] neither exits nor
    returns: it serves the bus for ever. *)
Lemma bootstrap_success_serves (w : World) (c : Conn) :
  w_ConnectSessionBus w = inl c ->
  w_PropExport w c desktop_path props = None ->
  w_RequestName w c desktop_name NameFlagDoNotQueue = (RequestNameReplyPrimaryOwner, None) ->
  result (main w) = Block.
Proof. intros H1 H2 H3. rewrite main_run, H1, H2, H3. reflexivity. Qed.

(** The scenario of the specification, end to end: the caller ":1.7" asks
    with the token "abc", gets the path of the request at once, and the
    file picker's line becomes the one URI of the [Response]. *)
Example OpenFile_end_to_end :
  let r := FileChooser.OpenFile (FileChooser.mk (mkPortal (mkConn 0))) ":1.7" "" "Open"
             {[ "handle_token" := MakeVariant (Dstring "abc") ]}
             (good_world ("/home/user/file.txt" +:+ newline)) in
  result r = Ret ("/org/freedesktop/portal/desktop/request/1_7/abc", None)
  /\ signals r
     = [EvEmit (mkConn 0) "/org/freedesktop/portal/desktop/request/1_7/abc" Response 0
          {[ "uris" := MakeVariant (Dstrings ["file:///home/user/file.txt"]) ]} None].
Proof. vm_compute. split; reflexivity. Qed.

(** * Further properties of the code *)

(** ** The exception runtime *)

(** [try] turns a panic with an [*Exception] into its result and lets
    every other panic through; it never ends in a panic with an
    [*Exception], and it adds no event of its own. *)
Theorem try_catches_only_exceptions (cb : M unit) (w : World) :
  (forall exc, result (try cb w) <> Panic (PException exc))
  /\ (forall exc, result (cb w) = Panic (PException exc) -> result (try cb w) = Ret (Some exc))
  /\ (forall msg, result (cb w) = Panic (PRuntimeError msg) ->
        result (try cb w) = Panic (PRuntimeError msg))
  /\ (result (cb w) = Ret tt -> result (try cb w) = Ret None)
  /\ trace (try cb w) = trace (cb w)
  /\ spawned (try cb w) = spawned (cb w).
Proof.
  unfold try. destruct (cb w) as [[[] | [exc | msg] | c |] tr sp]; cbn [result trace spawned];
    repeat split; intros; try discriminate; try reflexivity; congruence.
Qed.

Lemma try_catches_only_exceptions_witness :
  result (try (token ← assert_string (Some (Duint32 7)); mret tt) (good_world ""))
  = Panic (PRuntimeError "interface conversion: interface {} is uint32, not string").
Proof.
  apply (try_catches_only_exceptions
           (token ← assert_string (Some (Duint32 7)); mret tt) (good_world "")).
  reflexivity.
Defined.

(** [try] followed by [catch]: when the code throws, the handler runs on
    the exception thrown, after the events of the code; when the code
    returns, the handler does not run. *)
Theorem try_catch_runs_handler (cb : M unit) (h : Exception -> M unit) (w : World) :
  (forall exc, result (cb w) = Panic (PException exc) ->
     (e ← try cb; catch e h) w
     = mkExec (result (h exc w)) (trace (cb w) ++ trace (h exc w))
         (spawned (cb w) ++ spawned (h exc w)))
  /\ (result (cb w) = Ret tt ->
      (e ← try cb; catch e h) w = mkExec (Ret tt) (trace (cb w)) (spawned (cb w))).
Proof.
  unfold catch. run_M.
  destruct (cb w) as [[[] | [exc | msg] | c |] tr sp]; cbn [result trace spawned];
    split; intros; try discriminate.
  - now rewrite !app_nil_r.
  - match goal with H : Panic _ = Panic _ |- _ => injection H as <- end.
    now destruct (h exc w).
Qed.

Lemma try_catch_runs_handler_witness :
  (e ← try (throw (newException "boom")); catch e (fun exc => Println [LErr (what exc tt)]))
    (good_world "")
  = mkExec (Ret tt) [EvLog [LErr "boom"]] [].
Proof.
  destruct (try_catch_runs_handler (throw (newException "boom"))
              (fun exc => Println [LErr (what exc tt)]) (good_world "")) as [Hthrown _].
  exact (Hthrown (newException "boom") eq_refl).
Defined.

Lemma Sprintf_fatal (prefix msg : string) :
  fmt.Sprintf ("%s: %v" +:+ newline) [prefix; msg] = prefix +:+ ": " +:+ msg +:+ newline.
Proof. reflexivity. Qed.

(** [fatal] writes the one line [prefix: message] and ends the process
    with the given code; [try] does not stop it. *)
Theorem fatal_exits_through_try (exc : Exception) (code : Z) (prefix : string) (w : World) :
  fatal exc code prefix w
  = mkExec (Exit code) [EvStderr (prefix +:+ ": " +:+ what exc tt +:+ newline)] []
  /\ result (try (fatal exc code prefix) w) = Exit code.
Proof.
  assert (H : fatal exc code prefix w
              = mkExec (Exit code) [EvStderr (prefix +:+ ": " +:+ what exc tt +:+ newline)] []).
  { unfold fatal. run_M. now rewrite Sprintf_fatal. }
  split; [exact H |]. unfold try. now rewrite H.
Qed.

(** ** Helper programs *)

(** [lookPath] returns the path the search gives, or throws an exception
    that names the program and carries the error of the search as it is;
    it produces no event. *)
Theorem lookPath_found_or_throws (prog : string) (w : World) :
  (forall path, w_LookPath w prog = inl path -> lookPath prog w = mkExec (Ret path) [] [])
  /\ (forall err, w_LookPath w prog = inr err ->
        exists exc,
          lookPath prog w = mkExec (Panic (PException exc)) [] []
          /\ what exc tt = "can not find " +:+ prog +:+ ": " +:+ err).
Proof.
  unfold lookPath. run_M. split.
  - intros path ->. reflexivity.
  - intros err ->. eexists. split; [reflexivity | apply msg_can_not_find].
Qed.

Lemma lookPath_found_or_throws_witness :
  exists exc,
    lookPath "zenity" no_launcher_world = mkExec (Panic (PException exc)) [] []
    /\ what exc tt = "can not find zenity: executable file not found in $PATH".
Proof.
  apply (lookPath_found_or_throws "zenity" no_launcher_world). reflexivity.
Defined.

(** [xdgOpen] ends by returning or by throwing an exception, never in
    another panic; it starts the launcher at most once, only at the path
    the search found, and with the URL as its one argument, unchanged. *)
Theorem xdgOpen_outcomes (url : string) (w : World) :
  let r := xdgOpen url w in
  (result r = Ret tt \/ exists exc, result r = Panic (PException exc))
  /\ spawned r = []
  /\ (forall err, w_LookPath w launcher = inr err -> trace r = [])
  /\ (forall path, w_LookPath w launcher = inl path ->
        trace r = [EvSpawn path [launcher; url]])
  /\ (result r = Ret tt <->
      exists path, w_LookPath w launcher = inl path /\ w_Run w path [launcher; url] = None).
Proof.
  unfold xdgOpen, lookPath, launcher. run_M.
  destruct (w_LookPath w "xdg-open-dispatch") as [path | err]; run_M.
  - destruct (w_Run w path _) as [e|] eqn:HR; run_M.
    + split; [right; eexists; reflexivity |]. split; [reflexivity |].
      split; [intros ? [=] |]. split; [intros ? [= <-]; reflexivity |].
      split; [intros [=] | intros (q & [= <-] & Hq); congruence].
    + split; [left; reflexivity |]. split; [reflexivity |].
      split; [intros ? [=] |]. split; [intros ? [= <-]; reflexivity |].
      split; [intros _; exists path; now split | reflexivity].
  - split; [right; eexists; reflexivity |]. split; [reflexivity |].
    split; [reflexivity |]. split; [intros ? [=] |].
    split; [intros [=] | intros (q & [=] & _)].
Qed.

Lemma xdgOpen_outcomes_witness :
  trace (xdgOpen "https://example.org/a?b=c%20d" props_rejected_world)
  = [EvSpawn "/usr/bin/xdg-open-dispatch" [launcher; "https://example.org/a?b=c%20d"]].
Proof.
  apply (xdgOpen_outcomes "https://example.org/a?b=c%20d" props_rejected_world
           ).
  reflexivity.
Defined.

(** ** Requests *)

(** [response] hands exactly one signal to the bus, [Response] on the
    connection and the path of the request with the code and the results
    given; it returns when the bus took the signal and otherwise throws an
    exception that carries the error of the bus. *)
Theorem response_emits_once (r : request) (errcode : Z) (results : kv) (w : World) :
  let x := response r errcode results w in
  let answer := w_Emit w (conn r) (path r) Response errcode results in
  trace x = [EvEmit (conn r) (path r) Response errcode results answer]
  /\ spawned x = []
  /\ (answer = None -> result x = Ret tt)
  /\ (forall e, answer = Some e ->
        exists exc, result x = Panic (PException exc)
                    /\ what exc tt = "can not send response: " +:+ e).
Proof.
  unfold response, Response. run_M.
  destruct (w_Emit w (conn r) (path r) _ errcode results) as [e|]; run_M.
  - repeat split; try reflexivity; [intros [=] |].
    intros ? [= <-]. eexists. split; [reflexivity | apply msg_send_response].
  - repeat split; try reflexivity. intros ? [=].
Qed.

Lemma response_emits_once_witness :
  exists exc,
    result (response (newRequest (mkConn 0) ":1.7" "abc") 1 ∅ no_launcher_world)
    = Panic (PException exc)
    /\ what exc tt = "can not send response: dbus: connection closed by user".
Proof.
  apply (response_emits_once (newRequest (mkConn 0) ":1.7" "abc") 1 ∅ no_launcher_world).
  reflexivity.
Defined.

(** ** The sender in the path *)

Lemma dots_to_underscores_no_dot (s : string) : no_dot (dots_to_underscores s) = true.
Proof.
  induction s as [|c s IH]; [reflexivity |].
  cbn [dots_to_underscores no_dot]. rewrite IH, andb_true_r.
  destruct (Ascii.eqb_spec "." c) as [<- | Hne]; [reflexivity |].
  destruct (Ascii.eqb_spec c ".") as [-> | _]; [now destruct Hne | reflexivity].
Qed.

Lemma dots_to_underscores_length (s : string) :
  String.length (dots_to_underscores s) = String.length s.
Proof. induction s as [|c s IH]; [reflexivity |]. cbn. now rewrite IH. Qed.

Lemma dots_to_underscores_idempotent (s : string) :
  dots_to_underscores (dots_to_underscores s) = dots_to_underscores s.
Proof.
  induction s as [|c s IH]; [reflexivity |].
  cbn [dots_to_underscores]. rewrite IH. f_equal.
  destruct (Ascii.eqb_spec "." c) as [<- | Hne]; [reflexivity |].
  now destruct (Ascii.eqb_spec "." c).
Qed.

(** The two statements of [sanitize], read together. *)
Lemma sanitize_cases (sender : string) :
  sanitize sender
  = dots_to_underscores (if strings.HasPrefix sender ":" then strings.drop 1 sender else sender).
Proof.
  unfold sanitize, strings.CutPrefix. rewrite ReplaceAll_dots.
  now destruct (strings.HasPrefix sender ":").
Qed.

(** The sanitized sender holds no ["."], and it is as long as the sender
    without its leading [":"]: one byte is dropped when the sender begins
    with [":"], none otherwise, and no byte is ever added. *)
Theorem sanitize_shape (sender : string) :
  no_dot (sanitize sender) = true
  /\ String.length (sanitize sender)
     = (String.length sender - (if strings.HasPrefix sender ":" then 1 else 0))%nat.
Proof.
  rewrite sanitize_cases. split; [apply dots_to_underscores_no_dot |].
  rewrite dots_to_underscores_length.
  destruct sender as [|c s]; [reflexivity |].
  cbn [strings.HasPrefix]. destruct (Ascii.eqb ":" c); cbn; lia.
Qed.

(** The path does not tell a ["."] of the sender from a ["_"], nor a sender
    from the same sender with a [":"] put in front: such senders, with the
    same token, get the same path. *)
Theorem path_blind_to_sender_spelling (c : Conn) (s token : string) :
  path (newRequest c (String ":" s) token)
  = path (newRequest c (String ":" (dots_to_underscores s)) token)
  /\ (strings.HasPrefix s ":" = false ->
      path (newRequest c s token) = path (newRequest c (String ":" s) token)).
Proof.
  rewrite !newRequest_path, !sanitize_unique_name, dots_to_underscores_idempotent.
  split; [reflexivity |].
  intros H. now rewrite sanitize_cases, H.
Qed.

Lemma path_blind_to_sender_spelling_witness :
  path (newRequest (mkConn 0) "org.example.App" "t1")
  = path (newRequest (mkConn 0) ":org.example.App" "t1").
Proof.
  apply (path_blind_to_sender_spelling (mkConn 0) "org.example.App" "t1").
  reflexivity.
Defined.

(** For senders without ["/"], as the bus gives them, the path tells the
    sanitized sender and the token: two requests with the same path have
    both in common. *)
Theorem path_determines_request (c1 c2 : Conn) (S1 T1 S2 T2 : string) :
  no_slash S1 = true -> no_slash S2 = true ->
  path (newRequest c1 S1 T1) = path (newRequest c2 S2 T2) ->
  sanitize S1 = sanitize S2 /\ T1 = T2.
Proof.
  intros H1 H2. rewrite !newRequest_path. intros H.
  apply append_inj_l in H.
  apply (segment_split _ _ _ _ (sanitize_no_slash _ H1) (sanitize_no_slash _ H2) H).
Qed.

Lemma path_determines_request_witness :
  sanitize ":1.7" = sanitize ":1_7" /\ "abc" = "abc".
Proof.
  apply (path_determines_request (mkConn 0) (mkConn 1) ":1.7" "abc" ":1_7" "abc");
    vm_compute; reflexivity.
Defined.

(** ** The output of the file picker *)

Lemma space1_small (n : N) : strings.space1 n = true -> (n <= 32)%N.
Proof.
  unfold strings.space1.
  rewrite orb_true_iff, andb_true_iff, !N.leb_le, N.eqb_eq. lia.
Qed.

Lemma space2_high (a b : N) : strings.space2 a b = true -> (128 <= a)%N /\ (128 <= b)%N.
Proof.
  unfold strings.space2.
  rewrite andb_true_iff, orb_true_iff, !N.eqb_eq. lia.
Qed.

Lemma space3_high (a b c : N) :
  strings.space3 a b c = true -> (128 <= a)%N /\ (128 <= b)%N /\ (128 <= c)%N.
Proof.
  unfold strings.space3.
  rewrite !orb_true_iff, !andb_true_iff, !orb_true_iff, !andb_true_iff,
    !N.eqb_eq, !N.leb_le. lia.
Qed.

(** An ASCII white space is part of no longer white space. *)
Lemma space_byte_alone (x : ascii) :
  space_byte x = true ->
  (forall a, strings.space2 a (N_of_ascii x) = false)
  /\ (forall a, strings.space2 (N_of_ascii x) a = false)
  /\ (forall a b, strings.space3 a b (N_of_ascii x) = false)
  /\ (forall a b, strings.space3 a (N_of_ascii x) b = false)
  /\ (forall a b, strings.space3 (N_of_ascii x) a b = false).
Proof.
  unfold space_byte. intros H%space1_small.
  repeat split; intros;
    match goal with
    | |- ?t = false => destruct t eqn:E; [| reflexivity]
    end;
    first [apply space2_high in E | apply space3_high in E]; lia.
Qed.

Lemma all_space_forallb (s : string) :
  all_space s = forallb space_byte (list_ascii_of_string s).
Proof. induction s as [|c s IH]; [reflexivity |]. cbn. now rewrite IH. Qed.

Lemma list_ascii_of_string_app (s t : string) :
  list_ascii_of_string (s +:+ t) = (list_ascii_of_string s ++ list_ascii_of_string t)%list.
Proof. induction s as [|c s IH]; [reflexivity |]. cbn. now rewrite IH. Qed.

(** Both trimmings return an end of their argument. *)
Lemma trim_left_suffix (n : nat) (l : list ascii) :
  (length l <= n)%nat -> exists pre, l = (pre ++ strings.trim_left l)%list.
Proof.
  revert l. induction n as [|n IH]; intros l Hn.
  - destruct l; [now exists [] | cbn in Hn; lia].
  - destruct l as [|a [|b [|c r]]]; cbn [strings.trim_left]; cbn [length] in Hn.
    + now exists [].
    + destruct (strings.space1 _); [now exists [a] | now exists []].
    + destruct (strings.space1 _).
      * destruct (IH [b]) as [pre Hpre]; [cbn; lia |]. exists (a :: pre). cbn. now f_equal.
      * destruct (strings.space2 _ _); [now exists [a; b] | now exists []].
    + destruct (strings.space1 _).
      * destruct (IH (b :: c :: r)) as [pre Hpre]; [cbn; lia |].
        exists (a :: pre). cbn [app]. now f_equal.
      * destruct (strings.space2 _ _).
        -- destruct (IH (c :: r)) as [pre Hpre]; [cbn; lia |].
           exists (a :: b :: pre). cbn [app]. now do 2 f_equal.
        -- destruct (strings.space3 _ _ _).
           ++ destruct (IH r) as [pre Hpre]; [lia |].
              exists (a :: b :: c :: pre). cbn [app]. now do 3 f_equal.
           ++ now exists [].
Qed.

Lemma trim_right_rev_suffix (n : nat) (l : list ascii) :
  (length l <= n)%nat -> exists pre, l = (pre ++ strings.trim_right_rev l)%list.
Proof.
  revert l. induction n as [|n IH]; intros l Hn.
  - destruct l; [now exists [] | cbn in Hn; lia].
  - destruct l as [|a [|b [|c r]]]; cbn [strings.trim_right_rev]; cbn [length] in Hn.
    + now exists [].
    + destruct (strings.space1 _); [now exists [a] | now exists []].
    + destruct (strings.space1 _).
      * destruct (IH [b]) as [pre Hpre]; [cbn; lia |]. exists (a :: pre). cbn. now f_equal.
      * destruct (strings.space2 _ _); [now exists [a; b] | now exists []].
    + destruct (strings.space1 _).
      * destruct (IH (b :: c :: r)) as [pre Hpre]; [cbn; lia |].
        exists (a :: pre). cbn [app]. now f_equal.
      * destruct (strings.space2 _ _).
        -- destruct (IH (c :: r)) as [pre Hpre]; [cbn; lia |].
           exists (a :: b :: pre). cbn [app]. now do 2 f_equal.
        -- destruct (strings.space3 _ _ _).
           ++ destruct (IH r) as [pre Hpre]; [lia |].
              exists (a :: b :: c :: pre). cbn [app]. now do 3 f_equal.
           ++ now exists [].
Qed.

Lemma suffix_same_length {A} (pre l t : list A) :
  l = (pre ++ t)%list -> length t = length l -> t = l.
Proof.
  intros -> H. rewrite length_app in H.
  destruct pre; [reflexivity | cbn in H; lia].
Qed.

Lemma trim_left_length (l : list ascii) : (length (strings.trim_left l) <= length l)%nat.
Proof.
  destruct (trim_left_suffix (length l) l (le_n _)) as [pre H].
  rewrite H at 2. rewrite length_app. lia.
Qed.

Lemma trim_right_rev_length (l : list ascii) :
  (length (strings.trim_right_rev l) <= length l)%nat.
Proof.
  destruct (trim_right_rev_suffix (length l) l (le_n _)) as [pre H].
  rewrite H at 2. rewrite length_app. lia.
Qed.

Lemma trim_left_fixed (l : list ascii) :
  length (strings.trim_left l) = length l -> strings.trim_left l = l.
Proof.
  destruct (trim_left_suffix (length l) l (le_n _)) as [pre H].
  now apply suffix_same_length with pre.
Qed.

Lemma trim_right_rev_fixed (l : list ascii) :
  length (strings.trim_right_rev l) = length l -> strings.trim_right_rev l = l.
Proof.
  destruct (trim_right_rev_suffix (length l) l (le_n _)) as [pre H].
  now apply suffix_same_length with pre.
Qed.

Lemma trim_left_spaces (sp x : list ascii) :
  forallb space_byte sp = true -> strings.trim_left (sp ++ x) = strings.trim_left x.
Proof.
  induction sp as [|a sp IH]; [reflexivity |].
  cbn [forallb]. intros [Ha Hsp]%andb_prop.
  cbn [app strings.trim_left]. unfold space_byte in Ha. rewrite Ha. now apply IH.
Qed.

Lemma trim_right_rev_spaces (sp x : list ascii) :
  forallb space_byte sp = true ->
  strings.trim_right_rev (sp ++ x) = strings.trim_right_rev x.
Proof.
  induction sp as [|a sp IH]; [reflexivity |].
  cbn [forallb]. intros [Ha Hsp]%andb_prop.
  cbn [app strings.trim_right_rev]. unfold space_byte in Ha. rewrite Ha. now apply IH.
Qed.

(** White space put after a text that the left trimming keeps does not
    change what it keeps. *)
Lemma trim_left_keeps (p r : list ascii) :
  p <> [] -> strings.trim_left p = p -> forallb space_byte r = true ->
  strings.trim_left (p ++ r) = (p ++ r)%list.
Proof.
  intros Hne Hp Hr.
  destruct p as [|a [|b [|c p']]]; [now destruct Hne | | |].
  - cbn [strings.trim_left] in Hp.
    destruct (strings.space1 (N_of_ascii a)) eqn:Ha; [discriminate |].
    destruct r as [|x [|y r']]; cbn [app strings.trim_left]; rewrite Ha; [reflexivity | |].
    + cbn [forallb] in Hr. apply andb_prop in Hr as [Hx _].
      destruct (space_byte_alone x Hx) as (H2 & _). now rewrite H2.
    + cbn [forallb] in Hr. apply andb_prop in Hr as [Hx _].
      destruct (space_byte_alone x Hx) as (H2 & _ & _ & H3 & _). now rewrite H2, H3.
  - cbn [strings.trim_left] in Hp.
    destruct (strings.space1 (N_of_ascii a)) eqn:Ha.
    { pose proof (trim_left_length [b]) as Hl. cbn [strings.trim_left] in Hl.
      rewrite Hp in Hl. cbn in Hl. lia. }
    destruct (strings.space2 (N_of_ascii a) (N_of_ascii b)) eqn:Hab; [discriminate |].
    destruct r as [|x r']; cbn [app strings.trim_left]; rewrite Ha, Hab; [reflexivity |].
    cbn [forallb] in Hr. apply andb_prop in Hr as [Hx _].
    destruct (space_byte_alone x Hx) as (_ & _ & H3 & _). now rewrite H3.
  - cbn [strings.trim_left] in Hp.
    destruct (strings.space1 (N_of_ascii a)) eqn:Ha.
    { pose proof (trim_left_length (b :: c :: p')) as Hl. cbn [strings.trim_left] in Hl.
      rewrite Hp in Hl. cbn in Hl. lia. }
    destruct (strings.space2 (N_of_ascii a) (N_of_ascii b)) eqn:Hab.
    { pose proof (trim_left_length (c :: p')) as Hl. cbn [strings.trim_left] in Hl.
      rewrite Hp in Hl. cbn in Hl. lia. }
    destruct (strings.space3 (N_of_ascii a) (N_of_ascii b) (N_of_ascii c)) eqn:Habc.
    { pose proof (trim_left_length p') as Hl. cbn [strings.trim_left] in Hl.
      rewrite Hp in Hl. cbn in Hl. lia. }
    cbn [app strings.trim_left]. now rewrite Ha, Hab, Habc.
Qed.

Lemma forallb_rev {A} (f : A -> bool) (l : list A) :
  forallb f l = true -> forallb f (rev l) = true.
Proof.
  rewrite !forallb_forall. intros H x Hx. apply H. now apply in_rev.
Qed.

(** A text without white space around it comes back from [TrimSpace]
    whatever ASCII white space is put before and after it. *)
Lemma TrimSpace_padded (l p r : string) :
  all_space l = true -> all_space r = true -> strings.TrimSpace p = p ->
  strings.TrimSpace (l +:+ p +:+ r) = p.
Proof.
  rewrite !all_space_forallb. intros Hl Hr Hp.
  set (P := list_ascii_of_string p) in *.
  assert (HP : rev (strings.trim_right_rev (rev (strings.trim_left P))) = P).
  { apply (f_equal list_ascii_of_string) in Hp. unfold strings.TrimSpace in Hp.
    now rewrite list_ascii_of_string_of_list_ascii in Hp. }
  assert (Hlen : length (strings.trim_left P) = length P).
  { apply (f_equal (@length ascii)) in HP. rewrite length_rev in HP.
    pose proof (trim_right_rev_length (rev (strings.trim_left P))) as H1.
    rewrite length_rev in H1. pose proof (trim_left_length P). lia. }
  apply trim_left_fixed in Hlen. rewrite Hlen in HP.
  assert (HR : strings.trim_right_rev (rev P) = rev P).
  { apply (f_equal (@rev ascii)) in HP. now rewrite rev_involutive in HP. }
  unfold strings.TrimSpace. rewrite !list_ascii_of_string_app. fold P.
  rewrite (trim_left_spaces _ _ Hl).
  destruct P as [|a P'] eqn:EP.
  - cbn [app]. rewrite <- (app_nil_r (list_ascii_of_string r)).
    rewrite (trim_left_spaces _ _ Hr). cbn.
    rewrite <- (string_of_list_ascii_of_string p). subst P. now rewrite EP.
  - rewrite (trim_left_keeps (a :: P') _ ltac:(discriminate) Hlen Hr).
    rewrite rev_app_distr, (trim_right_rev_spaces _ _ (forallb_rev _ _ Hr)), HR,
      rev_involutive.
    rewrite <- EP. subst P. apply string_of_list_ascii_of_string.
Qed.

(** When the file picker succeeds and prints the text [p] with ASCII white
    space before and after it, [p] itself having none around it, the one
    signal of the task is the success [Response] whose URI is [file://]
    followed by [p] as it is. *)
Theorem OpenFile_uri_of_output (req : request) (w : World) (l p r : string) :
  w_Output w "zenity" ["--file-selection"] = (l +:+ p +:+ r, None) ->
  all_space l = true -> all_space r = true -> strings.TrimSpace p = p ->
  exists err,
    List.filter is_emit (trace (FileChooser.task req w))
    = [EvEmit (conn req) (path req) Response 0
         {[ "uris" := MakeVariant (Dstrings ["file://" +:+ p]) ]} err].
Proof.
  intros HO Hl Hr Hp. rewrite FileChooser_task_run, HO. unfold uris.
  rewrite (TrimSpace_padded _ _ _ Hl Hr Hp).
  destruct (w_Emit w _ _ _ 0 _); eexists; reflexivity.
Qed.

Lemma OpenFile_uri_of_output_witness :
  exists err,
    List.filter is_emit
      (trace (FileChooser.task (newRequest (mkConn 0) ":1.7" "abc")
                (good_world ("/home/user/my file.txt" +:+ newline))))
    = [EvEmit (mkConn 0) "/org/freedesktop/portal/desktop/request/1_7/abc" Response 0
         {[ "uris" := MakeVariant (Dstrings ["file:///home/user/my file.txt"]) ]} err].
Proof.
  apply (OpenFile_uri_of_output (newRequest (mkConn 0) ":1.7" "abc")
           (good_world ("/home/user/my file.txt" +:+ newline))
           "" "/home/user/my file.txt" newline);
    vm_compute; reflexivity.
Defined.

(** When the file picker succeeds and prints nothing, or ASCII white space
    only, the task still answers with the success [Response]; its one URI
    is the bare [file://]. *)
Theorem OpenFile_blank_output (req : request) (w : World) (pat : string) :
  w_Output w "zenity" ["--file-selection"] = (pat, None) ->
  all_space pat = true ->
  exists err,
    List.filter is_emit (trace (FileChooser.task req w))
    = [EvEmit (conn req) (path req) Response 0
         {[ "uris" := MakeVariant (Dstrings ["file://"]) ]} err].
Proof.
  intros HO Hs. rewrite FileChooser_task_run, HO. unfold uris.
  assert (HT : strings.TrimSpace pat = "").
  { rewrite <- (append_empty_r pat).
    change (pat +:+ "") with (pat +:+ "" +:+ "").
    now apply TrimSpace_padded. }
  rewrite HT. destruct (w_Emit w _ _ _ 0 _); eexists; reflexivity.
Qed.

Lemma OpenFile_blank_output_witness :
  exists err,
    List.filter is_emit
      (trace (FileChooser.task (newRequest (mkConn 0) ":1.7" "abc") (good_world newline)))
    = [EvEmit (mkConn 0) "/org/freedesktop/portal/desktop/request/1_7/abc" Response 0
         {[ "uris" := MakeVariant (Dstrings ["file://"]) ]} err].
Proof.
  apply (OpenFile_blank_output (newRequest (mkConn 0) ":1.7" "abc") (good_world newline)
           newline);
    vm_compute; reflexivity.
Defined.

Lemma FileChooser_task_spawns_nothing (req : request) (w : World) :
  spawned (FileChooser.task req w) = [].
Proof.
  rewrite FileChooser_task_run.
  destruct (w_Output w "zenity" ["--file-selection"]) as [pat [err|]];
    [destruct (w_Emit w _ _ _ 1 _) | destruct (w_Emit w _ _ _ 0 _)]; reflexivity.
Qed.

(** [OpenFile] does not wait for the file picker nor for the bus: what the
    handler returns and the one line it logs are the same in every world,
    and it detaches one task when it returns and none when it panics. *)
Theorem OpenFile_does_not_wait
    (p : FileChooser.t) (sender : Sender) (parent title : string) (options : kv)
    (w1 w2 : World) :
  let r1 := FileChooser.OpenFile p sender parent title options w1 in
  let r2 := FileChooser.OpenFile p sender parent title options w2 in
  result r1 = result r2
  /\ trace r1 = [EvLog [LStr "enter OpenFile"; LStr sender; LStr parent; LStr title;
                        LKv options]]
  /\ trace r2 = trace r1
  /\ length (spawned r1) = (match result r1 with Ret _ => 1 | _ => 0 end)%nat.
Proof.
  destruct (options !! "handle_token") as [tok |] eqn:Hlook.
  - destruct (Value tok) as [[n | s | l | q] |] eqn:Hval.
    2: { rewrite !(OpenFile_run _ _ _ _ _ _ _ _ Hlook Hval). cbn [result trace spawned length].
         rewrite FileChooser_task_spawns_nothing. repeat split; reflexivity. }
    all: unfold FileChooser.OpenFile, assert_string, map_index; rewrite Hlook, Hval;
      run_M; repeat split; reflexivity.
  - unfold FileChooser.OpenFile, assert_string, map_index. rewrite Hlook.
    run_M. repeat split; reflexivity.
Qed.

(** ** Bootstrap *)

Lemma Errorf_name_taken (service : string) :
  fmt.Sprintf "name %s already taken" [service] = "name " +:+ service +:+ " already taken".
Proof. reflexivity. Qed.

(** [bind] asks for the name once, without queuing.  It returns exactly
    when the bus answers "primary owner" without an error; an error wins
    over the reply that comes with it, and every other reply is thrown as
    "already taken". *)
Theorem bind_returns_iff_primary_owner (c : Conn) (service : string) (w : World) :
  let r := bind c service w in
  let answer := w_RequestName w c service NameFlagDoNotQueue in
  trace r = [EvRequestName c service NameFlagDoNotQueue]
  /\ (result r = Ret tt <-> answer = (RequestNameReplyPrimaryOwner, None))
  /\ (forall reply e, answer = (reply, Some e) ->
        exists exc, result r = Panic (PException exc)
                    /\ what exc tt = "can not request name " +:+ service +:+ ": " +:+ e)
  /\ (forall reply, answer = (reply, None) -> reply <> RequestNameReplyPrimaryOwner ->
        exists exc, result r = Panic (PException exc)
                    /\ what exc tt = "name " +:+ service +:+ " already taken").
Proof.
  unfold bind. run_M.
  destruct (w_RequestName w c service NameFlagDoNotQueue) as [reply [e|]]; run_M.
  - split; [reflexivity |]. split; [split; intros [=] |].
    split; [| intros ? [=]].
    intros ? ? [= <- <-]. eexists. split; [reflexivity |].
    unfold fmtException, newException. cbn [what]. apply Errorf_request_name.
  - destruct reply; run_M; (split; [reflexivity |]).
    1: { split; [tauto |]. split; [intros ? ? [=] |]. intros ? [= <-] Hne. now destruct Hne. }
    all: split; [split; intros [=] |]; split; [intros ? ? [=] |];
      intros ? [= <-] _; eexists; (split; [reflexivity |]);
      unfold fmtException, newException; cbn [what]; apply Errorf_name_taken.
Qed.

Lemma bind_returns_iff_primary_owner_witness :
  exists exc,
    result (bind (mkConn 0) "org.example.Svc" name_taken_world) = Panic (PException exc)
    /\ what exc tt = "name org.example.Svc already taken".
Proof.
  destruct (bind_returns_iff_primary_owner (mkConn 0) "org.example.Svc" name_taken_world)
    as (_ & _ & _ & Htaken).
  apply (Htaken RequestNameReplyExists); [reflexivity | discriminate].
Defined.

(** [main] never returns and never panics: it serves for ever exactly when
    the bus is reached, the properties are taken and the name is granted,
    and in every other world it exits with status 1.  It detaches no task
    of its own. *)
Theorem main_serves_or_exits_1 (w : World) :
  (result (main w) = Block \/ result (main w) = Exit 1)
  /\ (result (main w) = Block <->
      exists c, w_ConnectSessionBus w = inl c
                /\ w_PropExport w c desktop_path props = None
                /\ w_RequestName w c desktop_name NameFlagDoNotQueue
                   = (RequestNameReplyPrimaryOwner, None))
  /\ spawned (main w) = [].
Proof.
  rewrite main_run.
  destruct (w_ConnectSessionBus w) as [c | err].
  - destruct (w_PropExport w c desktop_path props) as [e|] eqn:HP.
    + split; [now right |]. split; [| reflexivity].
      split; [intros [=] | intros (c' & [= <-] & H & _); congruence].
    + destruct (w_RequestName w c desktop_name NameFlagDoNotQueue) as [reply [e|]] eqn:HR.
      * split; [now right |]. split; [| reflexivity].
        split; [intros [=] | intros (c' & [= <-] & _ & H); congruence].
      * destruct reply; cbn [is_primary_owner].
        1: { split; [now left |]. split; [| reflexivity].
             split; [intros _; exists c; now repeat split | reflexivity]. }
        all: split; [now right |]; split; [| reflexivity];
          split; [intros [=] | intros (c' & [= <-] & _ & H); congruence].
  - split; [now right |]. split; [| reflexivity].
    split; [intros [=] | intros (c' & [=] & _)].
Qed.

Lemma main_serves_or_exits_1_witness : result (main (good_world "")) = Block.
Proof.
  destruct (main_serves_or_exits_1 (good_world "")) as (_ & Hserves & _).
  apply Hserves. exists (mkConn 0). repeat split; reflexivity.
Defined.

(** The deferred [Close]: when the bootstrap fails after the bus was
    reached, the connection is closed, and before the diagnostic is
    written; while the process serves, and when the bus was never
    reached, nothing is closed. *)
Theorem main_closes_connection_on_failure (w : World) :
  (forall c, w_ConnectSessionBus w = inl c -> result (main w) = Exit 1 ->
     exists pre msg, trace (main w) = (pre ++ [EvClose c; abort msg])%list)
  /\ (result (main w) = Block -> forall c, ~ In (EvClose c) (trace (main w)))
  /\ (forall err, w_ConnectSessionBus w = inr err ->
        forall c, ~ In (EvClose c) (trace (main w))).
Proof.
  rewrite main_run.
  destruct (w_ConnectSessionBus w) as [c | err].
  - destruct (w_PropExport w c desktop_path props) as [e|].
    + split; [| split; [intros [=] | intros ? [=]]].
      intros ? [= <-] _. now eexists _, _.
    + destruct (w_RequestName w c desktop_name NameFlagDoNotQueue) as [reply [e|]].
      * split; [| split; [intros [=] | intros ? [=]]].
        intros ? [= <-] _. exists (exports c ++ [EvRequestName c desktop_name NameFlagDoNotQueue])%list.
        eexists. now rewrite <- app_assoc.
      * destruct reply; cbn [is_primary_owner].
        1: { split; [intros ? _ [=] |]. split; [| intros ? [=]].
             intros _ c' Hin. cbn in Hin. intuition discriminate. }
        all: split; [| split; [intros [=] | intros ? [=]]];
          intros ? [= <-] _;
          exists (exports c ++ [EvRequestName c desktop_name NameFlagDoNotQueue])%list;
          eexists; now rewrite <- app_assoc.
  - split; [intros ? [=] |]. split; [intros [=] |].
    intros ? _ c Hin. cbn in Hin. unfold abort in Hin. intuition discriminate.
Qed.

Lemma main_closes_connection_on_failure_witness :
  exists pre msg,
    trace (main props_rejected_world) = (pre ++ [EvClose (mkConn 0); abort msg])%list.
Proof.
  destruct (main_closes_connection_on_failure props_rejected_world) as (Hclosed & _).
  apply Hclosed; vm_compute; reflexivity.
Defined.

(** The name is asked for last: when the properties are rejected the name
    is never requested, and otherwise it is requested once, after the three
    interfaces and the properties have been exported. *)
Theorem main_requests_name_after_exports (w : World) (c : Conn) :
  w_ConnectSessionBus w = inl c ->
  (forall e, w_PropExport w c desktop_path props = Some e ->
     List.filter is_request_name (trace (main w)) = [])
  /\ (w_PropExport w c desktop_path props = None ->
      exists rest,
        trace (main w)
        = (exports c ++ EvRequestName c desktop_name NameFlagDoNotQueue :: rest)%list
        /\ List.filter is_request_name rest = []).
Proof.
  intros HC. rewrite main_run, HC. split.
  - intros e ->. reflexivity.
  - intros ->.
    destruct (w_RequestName w c desktop_name NameFlagDoNotQueue) as [reply [e|]].
    + eexists. split; reflexivity.
    + destruct (is_primary_owner reply); eexists; split; reflexivity.
Qed.

Lemma main_requests_name_after_exports_witness :
  List.filter is_request_name (trace (main props_rejected_world)) = [].
Proof.
  destruct (main_requests_name_after_exports props_rejected_world (mkConn 0) eq_refl)
    as (Hrejected & _).
  apply (Hrejected "dbus: invalid property"). reflexivity.
Defined.

(** The errors of [conn.Export] are dropped: whatever the bus answers to
    the three exports, [main] ends the same way with the same events. *)
Theorem main_ignores_export_errors
    (f : Conn -> ObjectPath -> string -> option error) (w : World) :
  main (with_Export f w) = main w.
Proof. rewrite !main_run. reflexivity. Qed.

(** The diagnostic stream: a run of [main] that exits has written one
    line, [abort: <message>], as its last event; a run that serves has
    written none. *)
Theorem main_aborts_with_one_line (w : World) :
  (result (main w) = Exit 1 ->
     exists pre msg,
       trace (main w) = (pre ++ [abort msg])%list /\ List.filter is_stderr pre = [])
  /\ (result (main w) = Block -> List.filter is_stderr (trace (main w)) = []).
Proof.
  rewrite main_run.
  destruct (w_ConnectSessionBus w) as [c | err].
  - destruct (w_PropExport w c desktop_path props) as [e|].
    + split; [| intros [=]]. intros _.
      exists (exports c ++ [EvClose c])%list. eexists. rewrite <- app_assoc. now split.
    + destruct (w_RequestName w c desktop_name NameFlagDoNotQueue) as [reply [e|]].
      * split; [| intros [=]]. intros _.
        exists (exports c ++ [EvRequestName c desktop_name NameFlagDoNotQueue; EvClose c])%list.
        eexists. rewrite <- app_assoc. now split.
      * destruct reply; cbn [is_primary_owner].
        1: { split; [intros [=] | reflexivity]. }
        all: split; [| intros [=]]; intros _;
          exists (exports c ++ [EvRequestName c desktop_name NameFlagDoNotQueue; EvClose c])%list;
          eexists; rewrite <- app_assoc; now split.
  - split; [| intros [=]]. intros _. exists []. eexists. now split.
Qed.

Lemma main_aborts_with_one_line_witness :
  exists pre msg,
    trace (main no_launcher_world) = (pre ++ [abort msg])%list
    /\ List.filter is_stderr pre = [].
Proof.
  destruct (main_aborts_with_one_line no_launcher_world) as (Hexit & _).
  apply Hexit. vm_compute. reflexivity.
Defined.

(** ** Settings *)

(** [splits_at_dot s] lists the pairs that [namespace + "." + key] joins
    to [s], and no other. *)
Lemma splits_at_dot_spec (s namespace key : string) :
  namespace +:+ "." +:+ key = s <-> In (namespace, key) (splits_at_dot s).
Proof.
  revert namespace. induction s as [|c s IH]; intros namespace.
  - split; [| intros []]. destruct namespace; discriminate.
  - cbn [splits_at_dot]. rewrite in_app_iff, in_map_iff. split.
    + destruct namespace as [|d ns]; cbn [String.append].
      * intros [= <- <-]. left. cbn. now left.
      * intros [= <- H]. right. exists (ns, key). split; [reflexivity | now apply IH].
    + intros [Hin | ((ns & k) & [= <- <-] & Hin)].
      * destruct (Ascii.eqb_spec c ".") as [-> |]; [| destruct Hin].
        destruct Hin as [[= <- <-] | []]. reflexivity.
      * cbn [fst snd String.append]. f_equal. now apply IH.
Qed.

(** [ReadOne] returns the value for exactly three pairs of namespace and
    key: the three ways to cut the key of the table at a ["."]. *)
Theorem ReadOne_hits_three_pairs
    (p : Settings.t) (sender : Sender) (namespace key : string) (w : World) :
  result (Settings.ReadOne p sender namespace key w) = Ret (Some boxed_one, None)
  <-> In (namespace, key)
        [("org", "freedesktop.appearance.color-scheme");
         ("org.freedesktop", "appearance.color-scheme");
         ("org.freedesktop.appearance", "color-scheme")].
Proof.
  rewrite ReadOne_run. cbn [result].
  change [("org", "freedesktop.appearance.color-scheme");
          ("org.freedesktop", "appearance.color-scheme");
          ("org.freedesktop.appearance", "color-scheme")]
    with (splits_at_dot color_scheme).
  rewrite <- splits_at_dot_spec.
  destruct (String.eqb_spec (namespace +:+ "." +:+ key) color_scheme) as [Heq | Hne].
  - tauto.
  - split; [discriminate | intros H; now destruct Hne].
Qed.

Lemma ReadOne_hits_three_pairs_witness :
  result (Settings.ReadOne (Settings.mk (mkPortal (mkConn 0))) ":1.7"
            "org" "freedesktop.appearance.color-scheme" (good_world ""))
  = Ret (Some boxed_one, None).
Proof.
  apply (ReadOne_hits_three_pairs (Settings.mk (mkPortal (mkConn 0))) ":1.7"
           "org" "freedesktop.appearance.color-scheme" (good_world "")).
  left. reflexivity.
Defined.
